(** * Dispatch dashboard: the [run_supply_needs] view and the dashboard's
      read, write and grouping operations.

    Definitions come first:
    - [Sql]: the view [run_supply_needs] (a WITH query over
      [daily_container_counts], [store_supplies] and [active_delivery_runs]),
      with SQL's NULLs, three-valued comparison, SUM, COALESCE, GROUP BY and
      LEFT JOIN written out;
    - [Spec]: the aggregator in the words of the specification, to compare
      the view with;
    - [Rest]: the part of the REST interface the dashboard uses: a query
      is a relation name, a column list and an optional ordering, and the
      service answers it with the rows of the relation in that order;
    - [Stores]: the table [stores] and its initial data;
    - [Backend]: the database behind the REST interface, as a service the
      dashboard talks to;
    - [Dashboard]: the component [DispatchDashboard]: its state, the
      asynchronous operations [fetchStores], [fetchRuns] and [addRun], the
      pure helpers [filterRunsByType] and [groupRunsByTime], and the event
      loop its handlers run on;
    - [Registration]: run registration in the words of the specification;
    - [Scenario]: one day of data, for the examples.

    The properties follow, in [SqlFacts], [Aggregator], [RestFacts] and
    [DashboardFacts], then the laws of the view ([AggregatorLaws]), of the
    component and its event loop ([DashboardLaws]) and of the initial data
    ([StoresLaws]). *)

From Stdlib Require Import ZArith List String Ascii Bool Lia.
From Stdlib Require Import Permutation Sorted.
Import ListNotations.

#[local] Open Scope Z_scope.
#[local] Open Scope string_scope.

(* ================================================================== *)
(** * The view [run_supply_needs] *)
(* ================================================================== *)

Module Sql.

(** ** Values

    A nullable column is an [option]: [None] is NULL.  Integers are
    unbounded ([SUM] over [integer] is [bigint] in PostgreSQL, and the
    difference of two such values is far from its range for any realistic
    table).  A [timestamptz] is a number of seconds since the epoch, a date
    is a number of days since the epoch. *)

Definition text := string.
Definition timestamptz := Z.
Definition date := Z.

(** [COALESCE(v, d)] with a non-null second argument. *)
Definition COALESCE {A : Type} (v : option A) (d : A) : A :=
  match v with
  | Some x => x
  | None => d
  end.

(** [a = b] is NULL as soon as one side is NULL. *)
Definition sql_eq {A : Type} (eqb : A -> A -> bool) (a b : option A) : option bool :=
  match a, b with
  | Some x, Some y => Some (eqb x y)
  | _, _ => None
  end.

(** A WHERE or ON condition keeps a row only when it is TRUE: FALSE and
    NULL both reject. *)
Definition is_true (c : option bool) : bool :=
  match c with
  | Some true => true
  | _ => false
  end.

(** GROUP BY and DISTINCT compare with IS NOT DISTINCT FROM: two NULLs fall
    in the same group. *)
Definition not_distinct {A : Type} (eqb : A -> A -> bool) (a b : option A) : bool :=
  match a, b with
  | Some x, Some y => eqb x y
  | None, None => true
  | _, _ => false
  end.

(** [SUM] skips NULLs and is NULL when there is no non-null input. *)
Definition sum_step (v acc : option Z) : option Z :=
  match v, acc with
  | None, _ => acc
  | Some x, None => Some x
  | Some x, Some a => Some (x + a)
  end.

Definition SUM (vs : list (option Z)) : option Z :=
  fold_right sum_step None vs.

(** The session: the transaction's start time and the offset of the
    session's time zone, in seconds.  [DATE(t)] is the calendar day of [t]
    in that zone and [CURRENT_DATE] the day of the transaction's start.
    One offset serves for every timestamp: this is exact for UTC and for
    zones of fixed offset, not across a daylight-saving switch. *)
Record session : Type := {
  now : timestamptz;
  time_zone : Z
}.

Definition seconds_per_day : Z := 86400.

Definition DATE (s : session) (t : option timestamptz) : option date :=
  option_map (fun x => (x + time_zone s) / seconds_per_day) t.

Definition CURRENT_DATE (s : session) : date :=
  (now s + time_zone s) / seconds_per_day.

(** ** Tables

    The declarations of the three tables the view reads are not among the
    sources: a table is given the columns the view names, each nullable
    but the key [id] of a run. *)

(** The six supply types. *)
Inductive supply : Type :=
  | Sleeves | Caps | Canvases | Totes | Hardlines | Softlines.

Definition all_supplies : list supply :=
  [Sleeves; Caps; Canvases; Totes; Hardlines; Softlines].

(** [daily_container_counts]: one row per count event. *)
Record daily_container_count : Type := {
  dcc_department_number : option text;
  dcc_sleeves : option Z;
  dcc_caps : option Z;
  dcc_canvases : option Z;
  dcc_totes : option Z;
  dcc_hardlines_raw : option Z;
  dcc_softlines_raw : option Z;
  dcc_created_at : option timestamptz
}.

(** [store_supplies]: the par levels of a store. *)
Record store_supply : Type := {
  ss_department_number : option text;
  ss_sleeves : option Z;
  ss_caps : option Z;
  ss_canvases : option Z;
  ss_totes : option Z;
  ss_hardlines_raw : option Z;
  ss_softlines_raw : option Z
}.

(** [active_delivery_runs]: the columns the view reads. *)
Record active_delivery_run : Type := {
  r_id : text;
  r_store_name : option text;
  r_department_number : option text;
  r_run_type : option text;
  r_truck_type : option text;
  r_status : option text;
  r_position : option Z;
  r_driver_id : option text;
  r_start_time : option timestamptz;
  r_preload_time : option timestamptz;
  r_complete_time : option timestamptz;
  r_depart_time : option timestamptz;
  r_created_at : option timestamptz
}.

Record database : Type := {
  daily_container_counts : list daily_container_count;
  store_supplies : list store_supply;
  active_delivery_runs : list active_delivery_run
}.

(** Column of a count row, of a par-level row, by supply type. *)
Definition count_of (k : supply) (c : daily_container_count) : option Z :=
  match k with
  | Sleeves => dcc_sleeves c
  | Caps => dcc_caps c
  | Canvases => dcc_canvases c
  | Totes => dcc_totes c
  | Hardlines => dcc_hardlines_raw c
  | Softlines => dcc_softlines_raw c
  end.

Definition par_of (k : supply) (p : store_supply) : option Z :=
  match k with
  | Sleeves => ss_sleeves p
  | Caps => ss_caps p
  | Canvases => ss_canvases p
  | Totes => ss_totes p
  | Hardlines => ss_hardlines_raw p
  | Softlines => ss_softlines_raw p
  end.

(** ** Relational operators *)

(** [SELECT DISTINCT]: one representative per class of [not_distinct]. *)
Fixpoint DISTINCT (ks : list (option text)) : list (option text) :=
  match ks with
  | [] => []
  | k :: rest =>
      k :: filter (fun k' => negb (not_distinct String.eqb k k')) (DISTINCT rest)
  end.

(** [l LEFT JOIN r ON on]: every row of [l] with each row of [r] matching
    it, or once with the NULL row when none matches. *)
Definition LEFT_JOIN {A B : Type} (on : A -> B -> option bool)
    (l : list A) (r : list B) : list (A * option B) :=
  flat_map
    (fun a =>
       match filter (fun b => is_true (on a b)) r with
       | [] => [(a, None)]
       | matches => map (fun b => (a, Some b)) matches
       end)
    l.

(** A column of the NULL-extended side of an outer join. *)
Definition col {B C : Type} (f : B -> option C) (b : option B) : option C :=
  match b with
  | Some x => f x
  | None => None
  end.

(** ** The common table expressions *)

(** [WHERE DATE(created_at) = CURRENT_DATE]. *)
Definition created_today (s : session) (created_at : option timestamptz) : bool :=
  is_true (sql_eq Z.eqb (DATE s created_at) (Some (CURRENT_DATE s))).

Definition counted_today (s : session) (db : database) : list daily_container_count :=
  filter (fun c => created_today s (dcc_created_at c)) (daily_container_counts db).

(** [daily_counts]: the departments counted today.  The final SELECT does
    not read it. *)
Definition daily_counts (s : session) (db : database) : list (option text) :=
  DISTINCT (map dcc_department_number (counted_today s db)).

Record store_total : Type := {
  st_department_number : option text;
  total_sleeves : option Z;
  total_caps : option Z;
  total_canvases : option Z;
  total_totes : option Z;
  total_hardlines : option Z;
  total_softlines : option Z
}.

Definition total_of (k : supply) (t : store_total) : option Z :=
  match k with
  | Sleeves => total_sleeves t
  | Caps => total_caps t
  | Canvases => total_canvases t
  | Totes => total_totes t
  | Hardlines => total_hardlines t
  | Softlines => total_softlines t
  end.

(** One output row of [GROUP BY department_number] for the group [k]. *)
Definition group_total (rows : list daily_container_count) (k : option text) : store_total :=
  let g := filter (fun c => not_distinct String.eqb k (dcc_department_number c)) rows in
  {| st_department_number := k;
     total_sleeves := SUM (map dcc_sleeves g);
     total_caps := SUM (map dcc_caps g);
     total_canvases := SUM (map dcc_canvases g);
     total_totes := SUM (map dcc_totes g);
     total_hardlines := SUM (map dcc_hardlines_raw g);
     total_softlines := SUM (map dcc_softlines_raw g) |}.

(** [store_totals]: today's counts, summed per department.  GROUP BY fixes
    no order: the list stands for the bag of its rows. *)
Definition store_totals (s : session) (db : database) : list store_total :=
  let rows := counted_today s db in
  map (group_total rows) (DISTINCT (map dcc_department_number rows)).

(** ** The view *)

Record needs_row : Type := {
  run_id : text;
  store_name : option text;
  department_number : option text;
  run_type : option text;
  type : option text;
  status : option text;
  position : option Z;
  driver_id : option text;
  start_time : option timestamptz;
  preload_time : option timestamptz;
  complete_time : option timestamptz;
  depart_time : option timestamptz;
  created_at : option timestamptz;
  sleeves_needed : Z;
  caps_needed : Z;
  canvases_needed : Z;
  totes_needed : Z;
  hardlines_needed : Z;
  softlines_needed : Z
}.

Definition needed (k : supply) (row : needs_row) : Z :=
  match k with
  | Sleeves => sleeves_needed row
  | Caps => caps_needed row
  | Canvases => canvases_needed row
  | Totes => totes_needed row
  | Hardlines => hardlines_needed row
  | Softlines => softlines_needed row
  end.

(** The SELECT list, over a row [r] of the runs joined with [st] and [ss]. *)
Definition select_list
    (j : active_delivery_run * option store_total * option store_supply) : needs_row :=
  let '(r, st, ss) := j in
  {| run_id := r_id r;
     store_name := r_store_name r;
     department_number := r_department_number r;
     run_type := r_run_type r;
     type := r_truck_type r;
     status := r_status r;
     position := r_position r;
     driver_id := r_driver_id r;
     start_time := r_start_time r;
     preload_time := r_preload_time r;
     complete_time := r_complete_time r;
     depart_time := r_depart_time r;
     created_at := r_created_at r;
     sleeves_needed := COALESCE (col ss_sleeves ss) 0 - COALESCE (col total_sleeves st) 0;
     caps_needed := COALESCE (col ss_caps ss) 0 - COALESCE (col total_caps st) 0;
     canvases_needed := COALESCE (col ss_canvases ss) 0 - COALESCE (col total_canvases st) 0;
     totes_needed := COALESCE (col ss_totes ss) 0 - COALESCE (col total_totes st) 0;
     hardlines_needed :=
       COALESCE (col ss_hardlines_raw ss) 0 - COALESCE (col total_hardlines st) 0;
     softlines_needed :=
       COALESCE (col ss_softlines_raw ss) 0 - COALESCE (col total_softlines st) 0 |}.

Definition on_store_totals (r : active_delivery_run) (st : store_total) : option bool :=
  sql_eq String.eqb (r_department_number r) (st_department_number st).

Definition on_store_supplies (j : active_delivery_run * option store_total)
    (ss : store_supply) : option bool :=
  sql_eq String.eqb (r_department_number (fst j)) (ss_department_number ss).

(** FROM active_delivery_runs r LEFT JOIN store_totals st LEFT JOIN
    store_supplies ss, then WHERE, then the SELECT list.  The view has no
    ORDER BY: the list stands for the bag of its rows, and the order it has
    here, that of the evaluation below, means nothing. *)
Definition run_supply_needs (s : session) (db : database) : list needs_row :=
  let from :=
    LEFT_JOIN on_store_supplies
      (LEFT_JOIN on_store_totals (active_delivery_runs db) (store_totals s db))
      (store_supplies db) in
  let kept := filter (fun j => created_today s (r_created_at (fst (fst j)))) from in
  map select_list kept.

(** [SELECT * FROM run_supply_needs] as a statement: the rows it returns
    and the database it leaves.  A view holds no rows of its own: each read
    evaluates its query over the tables as they are. *)
Definition read_run_supply_needs (s : session) (db : database)
    : list needs_row * database :=
  (run_supply_needs s db, db).

End Sql.

(* ================================================================== *)
(** * The aggregator as the specification words it *)
(* ================================================================== *)

Module Spec.
Import Sql.

(** "filter count facts to current-date rows", for the store [dept]. *)
Definition todays_counts_of (s : session) (db : database) (dept : option text)
    : list daily_container_count :=
  filter
    (fun c =>
       created_today s (dcc_created_at c)
       && is_true (sql_eq String.eqb dept (dcc_department_number c)))
    (daily_container_counts db).

(** "summing each of the six supply quantities independently". *)
Definition summed_count (s : session) (db : database) (dept : option text)
    (k : supply) : option Z :=
  SUM (map (count_of k) (todays_counts_of s db dept)).

(** "deficit = coalesce(parLevel, 0) - coalesce(summedCount, 0)". *)
Definition deficit (parLevel summedCount : option Z) : Z :=
  COALESCE parLevel 0 - COALESCE summedCount 0.

(** The par-level rows a run is joined with: those of its store, or the
    NULL row when the store has none. *)
Definition par_rows_of (db : database) (r : active_delivery_run)
    : list (option store_supply) :=
  match filter (fun p => is_true (on_store_supplies (r, None) p)) (store_supplies db) with
  | [] => [None]
  | ps => map Some ps
  end.

(** The output row of run [r] against the par-level row [par]. *)
Definition deficit_row (s : session) (db : database) (r : active_delivery_run)
    (par : option store_supply) : needs_row :=
  let d k := deficit (col (par_of k) par) (summed_count s db (r_department_number r) k) in
  {| run_id := r_id r;
     store_name := r_store_name r;
     department_number := r_department_number r;
     run_type := r_run_type r;
     type := r_truck_type r;
     status := r_status r;
     position := r_position r;
     driver_id := r_driver_id r;
     start_time := r_start_time r;
     preload_time := r_preload_time r;
     complete_time := r_complete_time r;
     depart_time := r_depart_time r;
     created_at := r_created_at r;
     sleeves_needed := d Sleeves;
     caps_needed := d Caps;
     canvases_needed := d Canvases;
     totes_needed := d Totes;
     hardlines_needed := d Hardlines;
     softlines_needed := d Softlines |}.

(** "one row per active run", "filtered to current-date creation": the rows
    one run contributes. *)
Definition rows_of_run (s : session) (db : database) (r : active_delivery_run)
    : list needs_row :=
  if created_today s (r_created_at r)
  then map (deficit_row s db r) (par_rows_of db r)
  else [].

(** The run a row was selected from: its thirteen run columns. *)
Definition run_columns (row : needs_row) : active_delivery_run :=
  {| r_id := run_id row;
     r_store_name := store_name row;
     r_department_number := department_number row;
     r_run_type := run_type row;
     r_truck_type := type row;
     r_status := status row;
     r_position := position row;
     r_driver_id := driver_id row;
     r_start_time := start_time row;
     r_preload_time := preload_time row;
     r_complete_time := complete_time row;
     r_depart_time := depart_time row;
     r_created_at := created_at row |}.

(** Modelled from the spec: the declaration of [store_supplies] is not part
    of the sources at hand.  The specification describes it as "the par
    (target) level per store per supply type", one row per store, as the
    sibling table [stores] declares with [department_number text UNIQUE]:
    no two rows carry the same non-null department number. *)
Definition department_numbers (ps : list store_supply) : list text :=
  flat_map
    (fun p => match ss_department_number p with Some d => [d] | None => [] end)
    ps.

Definition one_par_row_per_store (db : database) : Prop :=
  NoDup (department_numbers (store_supplies db)).

(** "ordered by run creation time descending": a row stands before one
    created no later. *)
Definition not_older (x y : needs_row) : Prop :=
  exists tx ty : timestamptz,
    created_at x = Some tx /\ created_at y = Some ty /\ (ty <= tx)%Z.

(** A row after the count [c] has been added: in a row of the count's
    department each deficit is lowered by the quantity counted, a NULL
    quantity by 0; any other row is as it was. *)
Definition credited (c : daily_container_count) (row : needs_row) : needs_row :=
  if is_true (sql_eq String.eqb (department_number row) (dcc_department_number c))
  then
    {| run_id := run_id row;
       store_name := store_name row;
       department_number := department_number row;
       run_type := run_type row;
       type := type row;
       status := status row;
       position := position row;
       driver_id := driver_id row;
       start_time := start_time row;
       preload_time := preload_time row;
       complete_time := complete_time row;
       depart_time := depart_time row;
       created_at := created_at row;
       sleeves_needed := sleeves_needed row - COALESCE (dcc_sleeves c) 0;
       caps_needed := caps_needed row - COALESCE (dcc_caps c) 0;
       canvases_needed := canvases_needed row - COALESCE (dcc_canvases c) 0;
       totes_needed := totes_needed row - COALESCE (dcc_totes c) 0;
       hardlines_needed := hardlines_needed row - COALESCE (dcc_hardlines_raw c) 0;
       softlines_needed := softlines_needed row - COALESCE (dcc_softlines_raw c) 0 |}
  else row.

(** The database with [counts] as its count facts. *)
Definition with_counts (db : database) (counts : list daily_container_count) : database :=
  {| daily_container_counts := counts;
     store_supplies := store_supplies db;
     active_delivery_runs := active_delivery_runs db |}.

(** A run of the store with department number [dept] has a row in today's
    output when it is registered and was created today. *)
Definition active_run_of (s : session) (db : database) (dept : text)
    (r : active_delivery_run) : Prop :=
  In r (active_delivery_runs db)
  /\ created_today s (r_created_at r) = true
  /\ r_department_number r = Some dept.

End Spec.

(* ================================================================== *)
(** * The REST interface: queries and their answers *)
(* ================================================================== *)

Module Rest.

(** The service behind the client library is not part of the repository:
    the dashboard only builds queries and reads what they resolve to.  Its
    answer to a SELECT is modelled as the interface documents it, so that
    what a query asks for can be stated as what is returned. *)

(** A query as the client's builder assembles it:
    [supabase.from(relation).select(columns).order(column, { ascending })]. *)
Record query : Type := {
  relation : string;
  columns : option string;
  ordering : option (string * bool)
}.

Definition from (relation : string) : query :=
  {| relation := relation; columns := None; ordering := None |}.

Definition select (columns : string) (q : query) : query :=
  {| relation := relation q; columns := Some columns; ordering := ordering q |}.

(** [order(column)] sorts ascending; [order(column, { ascending: b })] as
    [b] says. *)
Definition order (column : string) (ascending : option bool) (q : query) : query :=
  {| relation := relation q;
     columns := columns q;
     ordering := Some (column, Sql.COALESCE ascending true) |}.

(** What a call resolves to: [{ data, error }], [error] being the
    service's message when it refuses the request. *)
Record response (A : Type) : Type := {
  data : option A;
  error : option string
}.
Arguments data {A} _.
Arguments error {A} _.

(** A cell of a row on the wire. *)
Inductive value : Type :=
  | VNull
  | VInt (z : Z)
  | VText (t : string).

Definition of_int (v : option Z) : value :=
  match v with Some z => VInt z | None => VNull end.

Definition of_text (v : option string) : value :=
  match v with Some t => VText t | None => VNull end.

(** The columns a relation's rows have, by name. *)
Class Relation (R : Type) : Type :=
  column : string -> option (R -> value).

Section Ordering.

(** The collation of the database: the order of [text] values. *)
Variable collate : string -> string -> bool.

(** [ORDER BY c ASC]: NULLs come last; a column holds one type of value. *)
Definition value_leb (a b : value) : bool :=
  match a, b with
  | _, VNull => true
  | VNull, _ => false
  | VInt x, VInt y => (x <=? y)%Z
  | VText x, VText y => collate x y
  | VInt _, VText _ => true
  | VText _, VInt _ => false
  end.

(** [ORDER BY c DESC] is the reverse order (NULLs first). *)
Definition placed_before (ascending : bool) (a b : value) : bool :=
  if ascending then value_leb a b else value_leb b a.

Section Sort.
Context {R : Type}.
Variable before : R -> R -> bool.

Fixpoint insert_row (x : R) (sorted : list R) : list R :=
  match sorted with
  | [] => [x]
  | y :: rest => if before x y then x :: y :: rest else y :: insert_row x rest
  end.

Definition sort_rows (rows : list R) : list R :=
  fold_right insert_row [] rows.

End Sort.

(** The answer to a SELECT over a relation holding [rows]: the rows, in
    the order asked for; a request naming a column the relation does not
    have is refused. *)
Definition answer {R : Type} `{Relation R} (q : query) (rows : list R)
    : response (list R) :=
  match ordering q with
  | None => {| data := Some rows; error := None |}
  | Some (c, ascending) =>
      match column c with
      | Some key =>
          {| data :=
               Some (sort_rows (fun x y => placed_before ascending (key x) (key y)) rows);
             error := None |}
      | None => {| data := None; error := Some "column does not exist" |}
      end
  end.

End Ordering.

(** The columns of the view [run_supply_needs]. *)
#[global] Instance needs_row_relation : Relation Sql.needs_row :=
  fun c =>
    if c =? "run_id" then Some (fun r => VText (Sql.run_id r))
    else if c =? "store_name" then Some (fun r => of_text (Sql.store_name r))
    else if c =? "department_number" then Some (fun r => of_text (Sql.department_number r))
    else if c =? "run_type" then Some (fun r => of_text (Sql.run_type r))
    else if c =? "type" then Some (fun r => of_text (Sql.type r))
    else if c =? "status" then Some (fun r => of_text (Sql.status r))
    else if c =? "position" then Some (fun r => of_int (Sql.position r))
    else if c =? "driver_id" then Some (fun r => of_text (Sql.driver_id r))
    else if c =? "start_time" then Some (fun r => of_int (Sql.start_time r))
    else if c =? "preload_time" then Some (fun r => of_int (Sql.preload_time r))
    else if c =? "complete_time" then Some (fun r => of_int (Sql.complete_time r))
    else if c =? "depart_time" then Some (fun r => of_int (Sql.depart_time r))
    else if c =? "created_at" then Some (fun r => of_int (Sql.created_at r))
    else if c =? "sleeves_needed" then Some (fun r => VInt (Sql.sleeves_needed r))
    else if c =? "caps_needed" then Some (fun r => VInt (Sql.caps_needed r))
    else if c =? "canvases_needed" then Some (fun r => VInt (Sql.canvases_needed r))
    else if c =? "totes_needed" then Some (fun r => VInt (Sql.totes_needed r))
    else if c =? "hardlines_needed" then Some (fun r => VInt (Sql.hardlines_needed r))
    else if c =? "softlines_needed" then Some (fun r => VInt (Sql.softlines_needed r))
    else None.

End Rest.

(* ================================================================== *)
(** * The table [stores] and its initial data *)
(* ================================================================== *)

Module Stores.

(** A row of [stores]. *)
Record row : Type := {
  id : string;
  department_number : string;
  name : string;
  sleeves : Z;
  caps : Z;
  canvases : Z;
  totes : Z;
  hardlines_raw : Z;
  softlines_raw : Z;
  created_at : option Sql.timestamptz;
  updated_at : option Sql.timestamptz
}.

(** A row of the INSERT: [id] is generated and the two timestamps default to
    the time of the insertion. *)
Definition VALUES (department_number name : string)
    (sleeves caps canvases totes hardlines_raw softlines_raw : Z)
    (generated_id : string) (now : Sql.timestamptz) : row :=
  {| id := generated_id;
     department_number := department_number; name := name;
     sleeves := sleeves; caps := caps; canvases := canvases; totes := totes;
     hardlines_raw := hardlines_raw; softlines_raw := softlines_raw;
     created_at := Some now; updated_at := Some now |}.

Definition initial_data : list (string -> Sql.timestamptz -> row) :=
  [ VALUES "9011" "Tri-County" 40 80 12 21 20 45;
    VALUES "9012" "Cheviot" 10 20 13 12 5 5;
    VALUES "9014" "Independence" 11 22 11 13 10 10;
    VALUES "9015" "Hamilton" 10 20 22 22 12 12;
    VALUES "9016" "Oakley" 21 42 21 34 20 20;
    VALUES "9017" "Lebanon" 20 40 34 33 17 17;
    VALUES "9018" "Loveland" 30 60 32 24 20 20;
    VALUES "9019" "Bellevue" 26 52 22 26 15 15;
    VALUES "9020" "Harrison" 32 64 35 55 12 12;
    VALUES "9021" "Florence" 34 68 54 20 20 13;
    VALUES "9023" "Batesville" 32 64 38 45 12 12;
    VALUES "9024" "Fairfield" 33 66 86 12 20 20;
    VALUES "9025" "Mason" 46 92 54 11 6 6;
    VALUES "9026" "Beechmont" 4 8 76 25 18 18;
    VALUES "9027" "Mt. Washington" 3 6 54 56 6 6;
    VALUES "9029" "Montgomery" 44 88 57 47 6 6;
    VALUES "9030" "Oxford" 56 112 56 56 6 6;
    VALUES "9031" "West Chester" 43 86 46 37 14 14;
    VALUES "9032" "Lawrenceburg" 12 24 28 38 10 10;
    VALUES "9033" "Deerfield" 45 90 51 19 20 20 ].

(** The table after the INSERT: the rows get the ids [generated] in turn. *)
Fixpoint inserted (rows : list (string -> Sql.timestamptz -> row))
    (generated : nat -> string) (now : Sql.timestamptz) : list row :=
  match rows with
  | [] => []
  | r :: rest => r (generated 0%nat) now :: inserted rest (fun n => generated (S n)) now
  end.

(** The columns this declaration gives the table. *)
#[global] Instance stores_relation : Rest.Relation row :=
  fun c =>
    if c =? "id" then Some (fun r => Rest.VText (id r))
    else if c =? "created_at" then Some (fun r => Rest.of_int (created_at r))
    else if c =? "updated_at" then Some (fun r => Rest.of_int (updated_at r))
    else if c =? "department_number" then Some (fun r => Rest.VText (department_number r))
    else if c =? "name" then Some (fun r => Rest.VText (name r))
    else if c =? "sleeves" then Some (fun r => Rest.VInt (sleeves r))
    else if c =? "caps" then Some (fun r => Rest.VInt (caps r))
    else if c =? "canvases" then Some (fun r => Rest.VInt (canvases r))
    else if c =? "totes" then Some (fun r => Rest.VInt (totes r))
    else if c =? "hardlines_raw" then Some (fun r => Rest.VInt (hardlines_raw r))
    else if c =? "softlines_raw" then Some (fun r => Rest.VInt (softlines_raw r))
    else None.

(** [id uuid PRIMARY KEY] and [department_number text UNIQUE]: no two rows
    of the table share an id or a department number. *)
Fixpoint distinct (keys : list string) : bool :=
  match keys with
  | [] => true
  | k :: rest => negb (existsb (String.eqb k) rest) && distinct rest
  end.

Definition constraints_hold (table : list row) : bool :=
  distinct (map id table) && distinct (map department_number table).

(** [INSERT INTO stores ... VALUES ...]: the rows are added, all of them or,
    when a constraint is violated, none (the statement fails). *)
Definition INSERT (rows table : list row) : option (list row) :=
  if constraints_hold (table ++ rows)%list then Some (table ++ rows)%list else None.

(** [CREATE TABLE IF NOT EXISTS stores]: an existing table is left as it
    is. *)
Definition CREATE_TABLE_IF_NOT_EXISTS (stores : option (list row)) : list row :=
  match stores with
  | Some table => table
  | None => []
  end.

(** The table after the two statements, run at [now] with the ids
    [generated]. *)
Definition create_and_fill (generated : nat -> string) (now : Sql.timestamptz)
    (stores : option (list row)) : option (list row) :=
  INSERT (inserted initial_data generated now) (CREATE_TABLE_IF_NOT_EXISTS stores).

(** The par levels of a store, as a row of [store_supplies]. *)
Definition par_levels (r : row) : Sql.store_supply :=
  {| Sql.ss_department_number := Some (department_number r);
     Sql.ss_sleeves := Some (sleeves r);
     Sql.ss_caps := Some (caps r);
     Sql.ss_canvases := Some (canvases r);
     Sql.ss_totes := Some (totes r);
     Sql.ss_hardlines_raw := Some (hardlines_raw r);
     Sql.ss_softlines_raw := Some (softlines_raw r) |}.

End Stores.

(* ================================================================== *)
(** * The component [DispatchDashboard] *)
(* ================================================================== *)

Module Dashboard.

Module Store.
Record t : Type := {
  id : string;
  store_name : string;
  department_number : string
}.

End Store.

Module Status.
Inductive t : Type :=
  | pending | loading | preloaded | in_transit | complete | cancelled.
End Status.

Module TruckType.
Inductive t : Type := Box_Truck | Tractor_Trailer.

Definition label (x : t) : string :=
  match x with
  | Box_Truck => "Box Truck"
  | Tractor_Trailer => "Tractor Trailer"
  end.
End TruckType.

(** The interface [DeliveryRun]: the component's view of a row it was
    given.  Nothing checks a row against it. *)
Module DeliveryRun.
Record t : Type := {
  id : string;
  driver : string;
  store_id : string;
  store_name : string;
  department_number : string;
  status : Status.t;
  type : TruckType.t;
  sleeves_needed : Z;
  caps_needed : Z;
  canvases_needed : Z;
  totes_needed : Z;
  hardlines_needed : Z;
  softlines_needed : Z;
  fl_driver : string;
  start_time : option string;
  preload_time : option string;
  complete_time : option string;
  depart_time : option string;
  run_type : string
}.
End DeliveryRun.

Module RunType.
Inductive t : Type := All_Runs | Box_Truck_Runs | Tractor_Trailer_Runs.

Definition label (x : t) : string :=
  match x with
  | All_Runs => "All Runs"
  | Box_Truck_Runs => "Box Truck Runs"
  | Tractor_Trailer_Runs => "Tractor Trailer Runs"
  end.
End RunType.

Module RunTime.
Inductive t : Type := Morning_Runs | Afternoon_Runs | ADC_Runs.

Definition label (x : t) : string :=
  match x with
  | Morning_Runs => "Morning Runs"
  | Afternoon_Runs => "Afternoon Runs"
  | ADC_Runs => "ADC Runs"
  end.
End RunTime.

(** ** Strings *)

(** [s.split(sep)] for a separator of one character: the pieces of [s]
    between the occurrences of [sep]; there is always a first piece. *)
Fixpoint split_pieces (sep : ascii) (s : string) : string * list string :=
  match s with
  | EmptyString => (EmptyString, [])
  | String c rest =>
      let '(piece, pieces) := split_pieces sep rest in
      if Ascii.eqb c sep then (EmptyString, piece :: pieces)
      else (String c piece, pieces)
  end.

Definition split (sep : ascii) (s : string) : list string :=
  let '(piece, pieces) := split_pieces sep s in piece :: pieces.

(** [a[i]], [undefined] past the end. *)
Definition at_index {A : Type} (a : list A) (i : nat) : option A := nth_error a i.

(** [s.replace(pattern, replacement)] with a string pattern: the first
    occurrence only. *)
Fixpoint replace (pattern replacement s : string) : string :=
  if String.prefix pattern s
  then replacement ++ String.substring (String.length pattern) (String.length s) s
  else match s with
       | EmptyString => EmptyString
       | String c rest => String c (replace pattern replacement rest)
       end.

(** ** State *)

Record state : Type := {
  runs : list DeliveryRun.t;
  stores : list Store.t;
  loading : bool;
  error : option string;
  selectedType : RunType.t;
  showStoreDropdown : option string
}.

Definition initial : state :=
  {| runs := []; stores := []; loading := true; error := None;
     selectedType := RunType.All_Runs; showStoreDropdown := None |}.

Definition setRuns (v : list DeliveryRun.t) (st : state) : state :=
  {| runs := v; stores := stores st; loading := loading st; error := error st;
     selectedType := selectedType st; showStoreDropdown := showStoreDropdown st |}.

Definition setStores (v : list Store.t) (st : state) : state :=
  {| runs := runs st; stores := v; loading := loading st; error := error st;
     selectedType := selectedType st; showStoreDropdown := showStoreDropdown st |}.

Definition setLoading (v : bool) (st : state) : state :=
  {| runs := runs st; stores := stores st; loading := v; error := error st;
     selectedType := selectedType st; showStoreDropdown := showStoreDropdown st |}.

Definition setError (v : option string) (st : state) : state :=
  {| runs := runs st; stores := stores st; loading := loading st; error := v;
     selectedType := selectedType st; showStoreDropdown := showStoreDropdown st |}.

Definition setSelectedType (v : RunType.t) (st : state) : state :=
  {| runs := runs st; stores := stores st; loading := loading st; error := error st;
     selectedType := v; showStoreDropdown := showStoreDropdown st |}.

Definition setShowStoreDropdown (v : option string) (st : state) : state :=
  {| runs := runs st; stores := stores st; loading := loading st; error := error st;
     selectedType := selectedType st; showStoreDropdown := v |}.

(** ** Asynchronous code

    A remote call, indexed by what its promise settles to.  The payload of
    a SELECT is typed by the state it is stored in ([Store[]],
    [DeliveryRun[]]): the component does not inspect the rows it gets. *)

Inductive settled (A : Type) : Type :=
  | Resolved (r : Rest.response A)
  | Rejected.
Arguments Resolved {A} r.
Arguments Rejected {A}.

Inductive call : Type -> Type :=
  | select_stores (q : Rest.query) : call (settled (list Store.t))
  | select_runs (q : Rest.query) : call (settled (list DeliveryRun.t))
  | rpc (fn : string) (args : list (string * string)) : call (settled unit).

(** A request as the service sees it. *)
Inductive request : Type :=
  | Select (q : Rest.query)
  | Rpc (fn : string) (args : list (string * string)).

Definition sent {X : Type} (c : call X) : request :=
  match c with
  | select_stores q => Select q
  | select_runs q => Select q
  | rpc fn args => Rpc fn args
  end.

(** An asynchronous computation: it returns, calls a state setter, or
    awaits a remote call and goes on with what the call settled to. *)
Inductive async (A : Type) : Type :=
  | Return (a : A)
  | Setter (u : state -> state) (k : async A)
  | Await {X : Type} (c : call X) (k : X -> async A).
Arguments Return {A} a.
Arguments Setter {A} u k.
Arguments Await {A X} c k.

Fixpoint bind {A B : Type} (m : async A) (f : A -> async B) : async B :=
  match m with
  | Return a => f a
  | Setter u k => Setter u (bind k f)
  | Await c k => Await c (fun x => bind (k x) f)
  end.

(** A statement completes normally or throws. *)
Inductive completion (A : Type) : Type :=
  | Normal (a : A)
  | Thrown.
Arguments Normal {A} a.
Arguments Thrown {A}.

Definition js (A : Type) : Type := async (completion A).

Definition ret {A : Type} (a : A) : js A := Return (Normal a).

Definition throw {A : Type} : js A := Return Thrown.

Definition seq {A B : Type} (m : js A) (f : A -> js B) : js B :=
  bind m (fun o => match o with Normal a => f a | Thrown => Return Thrown end).

Definition set (u : state -> state) : js unit := Setter u (ret tt).

(** [await c]: a rejected promise throws at the [await]. *)
Definition await {A : Type} (c : call (settled A)) : js (Rest.response A) :=
  Await c (fun x => match x with Resolved r => ret r | Rejected => throw end).

(** [try { body } catch (err) { handler }]. *)
Definition try_catch {A : Type} (body handler : js A) : js A :=
  bind body (fun o => match o with Normal a => ret a | Thrown => handler end).

(** [try { body } finally { cleanup }]. *)
Definition try_finally {A : Type} (body : js A) (cleanup : js unit) : js A :=
  bind body (fun o => seq cleanup (fun _ => Return o)).

#[local] Notation "x <- m ;; k" := (seq m (fun x => k))
  (at level 61, m at next level, right associativity).
#[local] Notation "m ;; k" := (seq m (fun _ => k))
  (at level 61, right associativity).

(** [data || []]. *)
Definition or_empty {A : Type} (data : option (list A)) : list A :=
  match data with Some rows => rows | None => [] end.

(** ** The operations *)

Definition stores_query : Rest.query :=
  Rest.order "store_name" None (Rest.select "*" (Rest.from "stores")).

Definition fetchStores : js unit :=
  try_catch
    (r <- await (select_stores stores_query) ;;
     match Rest.error r with
     | Some storesError => throw
     | None => set (setStores (or_empty (Rest.data r)))
     end)
    (set (setError (Some "Failed to fetch stores"))).

Definition runs_query : Rest.query :=
  Rest.order "created_at" (Some false) (Rest.select "*" (Rest.from "run_supply_needs")).

Definition fetchRuns : js unit :=
  try_finally
    (try_catch
       (r <- await (select_runs runs_query) ;;
        match Rest.error r with
        | Some runsError => throw
        | None => set (setRuns (or_empty (Rest.data r)))
        end)
       (set (setError (Some "Failed to fetch delivery runs"))))
    (set (setLoading false)).

(** The arguments of a remote procedure call, as the object literal lists
    them; a property whose value is [undefined] is not sent. *)
Definition property (name : string) (v : option string) : list (string * string) :=
  match v with
  | Some x => [(name, x)]
  | None => []
  end.

(** [addRun(store, timeSlot)].  The two [console.error] calls write to the
    console only and are left out. *)
Definition addRun (store : Store.t) (timeSlot : string) : js unit :=
  try_catch
    (let runType := at_index (split " " timeSlot) 0 in
     r <- await (rpc "add_delivery_run"
                   (property "p_run_type" runType
                    ++ property "p_store_id" (Some (Store.id store))
                    ++ property "p_store_name" (Some (Store.store_name store))
                    ++ property "p_department_number" (Some (Store.department_number store))
                    ++ property "p_truck_type" (Some "box_truck"))) ;;
     match Rest.error r with
     | Some addError => throw
     | None => set (setShowStoreDropdown None) ;; fetchRuns
     end)
    (set (setError (Some "Failed to add run"))).

(** [filterRunsByType], reading [selectedType] from the state. *)
Definition filterRunsByType (selectedType : RunType.t) (runs : list DeliveryRun.t)
    : list DeliveryRun.t :=
  match selectedType with
  | RunType.All_Runs => runs
  | _ =>
      filter
        (fun run =>
           TruckType.label (DeliveryRun.type run)
           =? replace " Runs" "" (RunType.label selectedType))
        runs
  end.

(** The object [groupRunsByTime] returns, one property per time slot. *)
Record grouped : Type := {
  Morning_Runs : list DeliveryRun.t;
  Afternoon_Runs : list DeliveryRun.t;
  ADC_Runs : list DeliveryRun.t
}.

Definition groupRunsByTime (runs : list DeliveryRun.t) : grouped :=
  {| Morning_Runs := filter (fun run => DeliveryRun.run_type run =? "Morning") runs;
     Afternoon_Runs := filter (fun run => DeliveryRun.run_type run =? "Afternoon") runs;
     ADC_Runs := filter (fun run => DeliveryRun.run_type run =? "ADC") runs |}.

(** [Object.entries(groupedRuns)], in the order the properties were
    written. *)
Definition entries (g : grouped) : list (string * list DeliveryRun.t) :=
  [ (RunTime.label RunTime.Morning_Runs, Morning_Runs g);
    (RunTime.label RunTime.Afternoon_Runs, Afternoon_Runs g);
    (RunTime.label RunTime.ADC_Runs, ADC_Runs g) ].

(** The tables the component renders once [loading] is off: one per time
    slot, over the runs of the selected truck type. *)
Definition displayed (st : state) : list (string * list DeliveryRun.t) :=
  entries (groupRunsByTime (filterRunsByType (selectedType st) (runs st))).

(** ** Running a computation

    [service] settles every remote call.  The run threads the component's
    state through the setters and records the requests sent, oldest
    first. *)

Definition service : Type := forall X : Type, call X -> X.

Record outcome (A : Type) : Type := {
  result : A;
  final : state;
  requests : list request
}.
Arguments result {A} _.
Arguments final {A} _.
Arguments requests {A} _.

Fixpoint run {A : Type} (srv : service) (m : async A) (st : state) : outcome A :=
  match m with
  | Return a => {| result := a; final := st; requests := [] |}
  | Setter u k => run srv k (u st)
  | Await c k =>
      let o := run srv (k (srv _ c)) st in
      {| result := result o; final := final o; requests := sent c :: requests o |}
  end.

(** A read failed when its promise was rejected or resolved with an
    error. *)
Definition failed {A : Type} (x : settled A) : bool :=
  match x with
  | Rejected => true
  | Resolved r => match Rest.error r with Some _ => true | None => false end
  end.

(** ** Rendering *)

Definition getStatusColor (status : Status.t) : string :=
  match status with
  | Status.complete => "text-green-600 bg-green-50"
  | Status.cancelled => "text-red-600 bg-red-50"
  | Status.preloaded => "text-yellow-600 bg-yellow-50"
  | Status.in_transit => "text-blue-600 bg-blue-50"
  | _ => "text-gray-600 bg-gray-50"
  end.

(** [showStoreDropdown === timeSlot]: the store list of the slot is open. *)
Definition dropdownOpen (timeSlot : string) (st : state) : bool :=
  match showStoreDropdown st with
  | Some open => open =? timeSlot
  | None => false
  end.

(** The click on a slot's "Add Run" button:
    [setShowStoreDropdown(showStoreDropdown === timeSlot ? null : timeSlot)]. *)
Definition toggleStoreDropdown (timeSlot : string) (st : state) : state :=
  setShowStoreDropdown (if dropdownOpen timeSlot st then None else Some timeSlot) st.

(** What the component returns: the spinner while [loading], else the
    error banner ([error && ...]: a null or empty error shows none) above
    one table per time slot. *)
Inductive screen : Type :=
  | Spinner
  | Tables (banner : option string) (tables : list (string * list DeliveryRun.t)).

Definition render (st : state) : screen :=
  if loading st then Spinner
  else
    Tables
      (match error st with
       | Some message => if message =? "" then None else Some message
       | None => None
       end)
      (displayed st).

(** ** The event loop

    An asynchronous function runs until its first [await]; there it sends
    its request and leaves the rest of its body pending.  When the promise
    settles the body goes on, up to its next [await] or its end.  Several
    functions may be pending at a time, and their promises settle in any
    order. *)

Record task : Type := {
  awaited : Type;
  pending_call : call awaited;
  continuation : awaited -> js unit
}.

Record loop : Type := {
  current : state;
  pool : list task;
  sent_so_far : list request
}.

Definition idle (st : state) : loop :=
  {| current := st; pool := []; sent_so_far := [] |}.

Fixpoint advance (m : js unit) (l : loop) : loop :=
  match m with
  | Return _ => l
  | Setter u k =>
      advance k {| current := u (current l); pool := pool l;
                   sent_so_far := sent_so_far l |}
  | Await c k =>
      {| current := current l;
         pool := pool l ++ [{| awaited := _; pending_call := c; continuation := k |}];
         sent_so_far := sent_so_far l ++ [sent c] |}
  end.

(** The [i]-th pending task, taken out of the pool. *)
Fixpoint take_task (i : nat) (pool : list task) : option (task * list task) :=
  match pool, i with
  | [], _ => None
  | t :: rest, O => Some (t, rest)
  | t :: rest, S j =>
      match take_task j rest with
      | Some (found, others) => Some (found, t :: others)
      | None => None
      end
  end.

(** What happens: a handler of the component starts, or the promise of the
    [i]-th pending task settles to what the service answers at that
    moment. *)
Inductive event : Type :=
  | Start (m : js unit)
  | Settle (srv : service) (i : nat).

Definition react (l : loop) (e : event) : loop :=
  match e with
  | Start m => advance m l
  | Settle srv i =>
      match take_task i (pool l) with
      | Some (t, others) =>
          advance (continuation t (srv _ (pending_call t)))
            {| current := current l; pool := others; sent_so_far := sent_so_far l |}
      | None => l
      end
  end.

Definition play (es : list event) (l : loop) : loop := fold_left react es l.

(** [useEffect(() => { fetchRuns(); fetchStores(); ... }, [])]: both reads
    are started, neither is awaited.  The third call of the effect,
    [setupRealtimeSubscription()], starts no handler and sets no state: it
    is [subscription] below, sent after the two reads. *)
Definition mount : list event := [Start fetchRuns; Start fetchStores].

(** A change the database notifies, and the changes a subscription asks
    for ([event: '*'] asks for every kind). *)
Record change : Type := {
  change_kind : string;
  change_schema : string;
  change_table : string
}.

Record postgres_changes : Type := {
  event_kind : string;
  schema : string;
  table : string
}.

Definition concerns (f : postgres_changes) (c : change) : bool :=
  ((event_kind f =? "*") || (event_kind f =? change_kind c))
  && (schema f =? change_schema c)
  && (table f =? change_table c).

(** [setupRealtimeSubscription]: on the channel [dispatch-changes], every
    change of [public.active_delivery_runs] calls [fetchRuns]. *)
Definition dispatch_changes : postgres_changes :=
  {| event_kind := "*"; schema := "public"; table := "active_delivery_runs" |}.

Definition notified (c : change) : list event :=
  if concerns dispatch_changes c then [Start fetchRuns] else [].

(** The handlers of the component: the two reads, [addRun] from a store
    button, the type buttons and the "Add Run" buttons. *)
Inductive handler : js unit -> Prop :=
  | handler_fetchRuns : handler fetchRuns
  | handler_fetchStores : handler fetchStores
  | handler_addRun (store : Store.t) (timeSlot : string) : handler (addRun store timeSlot)
  | handler_type (t : RunType.t) : handler (set (setSelectedType t))
  | handler_dropdown (timeSlot : string) : handler (set (toggleStoreDropdown timeSlot)).

Inductive occurs : event -> Prop :=
  | occurs_start (m : js unit) : handler m -> occurs (Start m)
  | occurs_settle (srv : service) (i : nat) : occurs (Settle srv i).

(** Settling the oldest pending task, [n] times over. *)
Definition drain (srv : service) (n : nat) : list event := repeat (Settle srv 0) n.

(** The awaits a computation goes through when [srv] answers. *)
Fixpoint awaits {A : Type} (srv : service) (m : async A) : nat :=
  match m with
  | Return _ => 0
  | Setter _ k => awaits srv k
  | Await c k => S (awaits srv (k (srv _ c)))
  end.

(** What the client sends: a request of a handler, or the subscription to
    a channel of change notifications. *)
Inductive message : Type :=
  | Request (r : request)
  | Subscribe (channel : string) (changes : postgres_changes).





(** The call [addRun] awaits first. *)
Definition registration (store : Store.t) (timeSlot : string) : call (settled unit) :=
  rpc "add_delivery_run"
    (property "p_run_type" (at_index (split " " timeSlot) 0)
     ++ property "p_store_id" (Some (Store.id store))
     ++ property "p_store_name" (Some (Store.store_name store))
     ++ property "p_department_number" (Some (Store.department_number store))
     ++ property "p_truck_type" (Some "box_truck")).

(** Every setter a computation may call, whatever its calls settle to,
    satisfies [ok]; every request it may send satisfies [ok]. *)
Fixpoint every_setter {A : Type} (ok : (state -> state) -> Prop) (m : async A) : Prop :=
  match m with
  | Return _ => True
  | Setter u k => ok u /\ every_setter ok k
  | Await c k => forall x, every_setter ok (k x)
  end.

Fixpoint every_request {A : Type} (ok : request -> Prop) (m : async A) : Prop :=
  match m with
  | Return _ => True
  | Setter u k => every_request ok k
  | Await c k => ok (sent c) /\ forall x, every_request ok (k x)
  end.

(** The setter calls the component is written to make. *)
Inductive written_setter : (state -> state) -> Prop :=
  | written_setRuns (v : list DeliveryRun.t) : written_setter (setRuns v)
  | written_setStores (v : list Store.t) : written_setter (setStores v)
  | written_setLoading : written_setter (setLoading false)
  | written_setError (message : string) :
      In message
        ["Failed to fetch stores"; "Failed to fetch delivery runs"; "Failed to add run"] ->
      written_setter (setError (Some message))
  | written_close : written_setter (setShowStoreDropdown None)
  | written_setSelectedType (t : RunType.t) : written_setter (setSelectedType t)
  | written_toggle (timeSlot : string) : written_setter (toggleStoreDropdown timeSlot).

(** Every pending task goes on with written setters only. *)
Definition pending_written (l : loop) : Prop :=
  Forall (fun t => forall x, every_setter written_setter (continuation t x)) (pool l).



End Dashboard.

(* ================================================================== *)
(** * The database behind the REST interface *)
(* ================================================================== *)

Module Backend.

(** The two relations the component reads: the table [stores], with the
    columns its declaration gives it, and the view [run_supply_needs] over
    the three tables of [Sql.database].  [elsewhere] is the answer for any
    other relation. *)
Inductive row : Type :=
  | stores_row (r : Stores.row)
  | needs_row (r : Sql.needs_row).

Record t : Type := {
  collation : string -> string -> bool;
  clock : Sql.session;
  tables : Sql.database;
  stores : list Stores.row;
  elsewhere : Rest.query -> Rest.response (list row)
}.

Definition rows_of {R : Type} (wrap : R -> row) (a : Rest.response (list R))
    : Rest.response (list row) :=
  {| Rest.data := option_map (map wrap) (Rest.data a); Rest.error := Rest.error a |}.

Definition serve (b : t) (q : Rest.query) : Rest.response (list row) :=
  if Rest.relation q =? "stores"
  then rows_of stores_row (Rest.answer (collation b) q (stores b))
  else if Rest.relation q =? "run_supply_needs"
  then rows_of needs_row
         (Rest.answer (collation b) q (Sql.run_supply_needs (clock b) (tables b)))
  else elsewhere b q.

(** How the component reads a row: [data] is typed by the state it is
    stored in ([Store[]], [DeliveryRun[]]) and no check is made, so any
    reading is allowed for. *)
Record reading : Type := {
  as_store : row -> Dashboard.Store.t;
  as_run : row -> Dashboard.DeliveryRun.t
}.

Definition resolved {A : Type} (read : row -> A) (a : Rest.response (list row))
    : Dashboard.settled (list A) :=
  Dashboard.Resolved
    {| Rest.data := option_map (map read) (Rest.data a); Rest.error := Rest.error a |}.

(** The service a dashboard connected to [b] talks to.  The procedure
    [add_delivery_run] is not among the sources: [procedures] stands for
    what calling one settles to. *)
Definition service (b : t) (rd : reading)
    (procedures : string -> list (string * string) -> Dashboard.settled unit)
    : Dashboard.service :=
  fun X c =>
    match c in Dashboard.call X return X with
    | Dashboard.select_stores q => resolved (as_store rd) (serve b q)
    | Dashboard.select_runs q => resolved (as_run rd) (serve b q)
    | Dashboard.rpc fn args => procedures fn args
    end.

End Backend.

(* ================================================================== *)
(** * Run registration as the specification words it *)
(* ================================================================== *)

Module Registration.

(** White space: space, tab, line feed, vertical tab, form feed, carriage
    return. *)
Definition is_whitespace (c : ascii) : bool :=
  let n := nat_of_ascii c in
  (n =? 32)%nat || ((9 <=? n)%nat && (n <=? 13)%nat).

Fixpoint skip_whitespace (s : string) : string :=
  match s with
  | EmptyString => EmptyString
  | String c rest => if is_whitespace c then skip_whitespace rest else s
  end.

Fixpoint take_token (s : string) : string :=
  match s with
  | EmptyString => EmptyString
  | String c rest => if is_whitespace c then EmptyString else String c (take_token rest)
  end.

(** "the first whitespace-delimited token of the label". *)
Definition first_token (label : string) : string :=
  take_token (skip_whitespace label).

(** "a fixed truck-type default". *)
Definition truck_type_default : string := "box_truck".

(** The run-type tags that have a group on the dashboard. *)
Definition has_group (run_type : string) : bool :=
  (run_type =? "Morning") || (run_type =? "Afternoon") || (run_type =? "ADC").

End Registration.

(* ================================================================== *)
(** * A day at the dispatch desk *)
(* ================================================================== *)

Module Scenario.
Import Sql.

(** Day 20100 since the epoch; the session runs in UTC, one hour into the
    day. *)
Definition at_day (d second : Z) : option timestamptz :=
  Some (d * seconds_per_day + second)%Z.

Definition clock : session := {| now := 20100 * seconds_per_day + 3600; time_zone := 0 |}.

Definition later_that_day : session :=
  {| now := 20100 * seconds_per_day + 72000; time_zone := 0 |}.

(** A count of sleeves only. *)
Definition sleeves_counted (dept : text) (n : Z) (created_at : option timestamptz)
    : daily_container_count :=
  {| dcc_department_number := Some dept;
     dcc_sleeves := Some n;
     dcc_caps := Some 0; dcc_canvases := Some 0; dcc_totes := Some 0;
     dcc_hardlines_raw := Some 0; dcc_softlines_raw := Some 0;
     dcc_created_at := created_at |}.

Definition registered (id name dept : text) (created_at : option timestamptz)
    : active_delivery_run :=
  {| r_id := id;
     r_store_name := Some name;
     r_department_number := Some dept;
     r_run_type := Some "Morning";
     r_truck_type := Some "box_truck";
     r_status := Some "pending";
     r_position := None;
     r_driver_id := None;
     r_start_time := None; r_preload_time := None;
     r_complete_time := None; r_depart_time := None;
     r_created_at := created_at |}.

Definition stale_count : daily_container_count :=
  sleeves_counted "9011" 100 (at_day 20099 40000).

Definition counts_before : list daily_container_count :=
  [ sleeves_counted "9011" 10 (at_day 20100 600) ].

Definition counts_after : list daily_container_count :=
  [ sleeves_counted "9011" 5 (at_day 20100 1200);
    sleeves_counted "9012" 50 (at_day 20100 1800);
    sleeves_counted "7777" 3 (at_day 20100 2400) ].

Definition tri_county_run : active_delivery_run :=
  registered "run-1" "Tri-County" "9011" (at_day 20100 100).

Definition cheviot_run : active_delivery_run :=
  registered "run-2" "Cheviot" "9012" (at_day 20100 200).

Definition yesterdays_run : active_delivery_run :=
  registered "run-3" "Tri-County" "9011" (at_day 20099 300).

(** A run for a department without par levels. *)
Definition unlisted_run : active_delivery_run :=
  registered "run-4" "Pop-up" "7777" (at_day 20100 400).

(** The id of the [n]-th store inserted, counting from 0: store-01,
    store-02, ... *)
Definition digit (n : nat) : string :=
  String (ascii_of_nat (48 + n mod 10)) EmptyString.

Definition store_id (n : nat) : string :=
  "store-" ++ digit (S n / 10) ++ digit (S n).

(** The table [stores] after its migration. *)
Definition stores_table : list Stores.row :=
  Stores.inserted Stores.initial_data store_id (20000 * seconds_per_day).

Definition desk : database :=
  {| daily_container_counts := counts_before ++ stale_count :: counts_after;
     store_supplies := map Stores.par_levels stores_table;
     active_delivery_runs :=
       [ tri_county_run; cheviot_run; yesterdays_run; unlisted_run ] |}.

Definition tri_county_par : store_supply :=
  Stores.par_levels
    (Stores.VALUES "9011" "Tri-County" 40 80 12 21 20 45 "store-01" (20000 * seconds_per_day)).

Definition cheviot_row : needs_row :=
  Spec.deficit_row clock desk cheviot_run
    (Some (Stores.par_levels
             (Stores.VALUES "9012" "Cheviot" 10 20 13 12 5 5 "store-02"
                (20000 * seconds_per_day)))).

(** The dashboard's side. *)
Definition cheviot : Dashboard.Store.t :=
  {| Dashboard.Store.id := "store-02";
     Dashboard.Store.store_name := "Cheviot";
     Dashboard.Store.department_number := "9012" |}.

Definition store_list : list Dashboard.Store.t :=
  [ {| Dashboard.Store.id := "store-01";
       Dashboard.Store.store_name := "Tri-County";
       Dashboard.Store.department_number := "9011" |};
    cheviot;
    {| Dashboard.Store.id := "store-05";
       Dashboard.Store.store_name := "Oakley";
       Dashboard.Store.department_number := "9016" |} ].

Definition shown_run (id : string) (run_type : string) : Dashboard.DeliveryRun.t :=
  {| Dashboard.DeliveryRun.id := id;
     Dashboard.DeliveryRun.driver := "";
     Dashboard.DeliveryRun.store_id := "store-02";
     Dashboard.DeliveryRun.store_name := "Cheviot";
     Dashboard.DeliveryRun.department_number := "9012";
     Dashboard.DeliveryRun.status := Dashboard.Status.pending;
     Dashboard.DeliveryRun.type := Dashboard.TruckType.Box_Truck;
     Dashboard.DeliveryRun.sleeves_needed := -40;
     Dashboard.DeliveryRun.caps_needed := 20;
     Dashboard.DeliveryRun.canvases_needed := 13;
     Dashboard.DeliveryRun.totes_needed := 12;
     Dashboard.DeliveryRun.hardlines_needed := 5;
     Dashboard.DeliveryRun.softlines_needed := 5;
     Dashboard.DeliveryRun.fl_driver := "";
     Dashboard.DeliveryRun.start_time := None;
     Dashboard.DeliveryRun.preload_time := None;
     Dashboard.DeliveryRun.complete_time := None;
     Dashboard.DeliveryRun.depart_time := None;
     Dashboard.DeliveryRun.run_type := run_type |}.

Definition fetched_runs : list Dashboard.DeliveryRun.t :=
  [ shown_run "run-2" "Morning"; shown_run "run-5" "morning";
    shown_run "run-6" " Morning"; shown_run "run-7" "ADC" ].

(** The dashboard with a run list on display and no store loaded yet. *)
Definition runs_on_display : Dashboard.state :=
  Dashboard.setLoading false (Dashboard.setRuns fetched_runs Dashboard.initial).

(** A count entered without department, and a run registered without. *)
Definition anonymous_count : daily_container_count :=
  {| dcc_department_number := None;
     dcc_sleeves := Some 7;
     dcc_caps := None; dcc_canvases := Some 2; dcc_totes := None;
     dcc_hardlines_raw := None; dcc_softlines_raw := None;
     dcc_created_at := at_day 20100 900 |}.

Definition unassigned_run : active_delivery_run :=
  {| r_id := "run-8";
     r_store_name := Some "Cheviot";
     r_department_number := None;
     r_run_type := Some "ADC";
     r_truck_type := Some "box_truck";
     r_status := Some "pending";
     r_position := None;
     r_driver_id := None;
     r_start_time := None; r_preload_time := None;
     r_complete_time := None; r_depart_time := None;
     r_created_at := at_day 20100 500 |}.

Definition desk_with_unassigned : database :=
  {| daily_container_counts := anonymous_count :: daily_container_counts desk;
     store_supplies := store_supplies desk;
     active_delivery_runs := unassigned_run :: active_delivery_runs desk |}.

(** The database of the desk behind the REST interface, names ordered
    byte by byte, and a dashboard that reads the id and the run type of a
    row of the view. *)
Definition office : Backend.t :=
  {| Backend.collation := String.leb;
     Backend.clock := clock;
     Backend.tables := desk;
     Backend.stores := stores_table;
     Backend.elsewhere :=
       fun _ => {| Rest.data := None; Rest.error := Some "not served" |} |}.

Definition read_rows : Backend.reading :=
  {| Backend.as_store :=
       fun r =>
         match r with
         | Backend.stores_row x =>
             {| Dashboard.Store.id := Stores.id x;
                Dashboard.Store.store_name := "";
                Dashboard.Store.department_number := Stores.department_number x |}
         | Backend.needs_row _ => cheviot
         end;
     Backend.as_run :=
       fun r =>
         match r with
         | Backend.needs_row x =>
             shown_run (Sql.run_id x) (Sql.COALESCE (Sql.run_type x) "")
         | Backend.stores_row _ => shown_run "" ""
         end |}.

Definition accepting (fn : string) (args : list (string * string))
    : Dashboard.settled unit :=
  Dashboard.Resolved {| Rest.data := None; Rest.error := None |}.

(** A service that is up: it lists the stores and the runs and accepts
    every registration. *)
Definition available : Dashboard.service :=
  fun X c =>
    match c in Dashboard.call X return X with
    | Dashboard.select_stores _ =>
        Dashboard.Resolved {| Rest.data := Some store_list; Rest.error := None |}
    | Dashboard.select_runs _ =>
        Dashboard.Resolved {| Rest.data := Some fetched_runs; Rest.error := None |}
    | Dashboard.rpc _ _ =>
        Dashboard.Resolved {| Rest.data := None; Rest.error := None |}
    end.

(** A service that is down: every call resolves with an error. *)
Definition unavailable : Dashboard.service :=
  fun X c =>
    match c in Dashboard.call X return X with
    | Dashboard.select_stores _ =>
        Dashboard.Resolved {| Rest.data := None; Rest.error := Some "503" |}
    | Dashboard.select_runs _ =>
        Dashboard.Resolved {| Rest.data := None; Rest.error := Some "503" |}
    | Dashboard.rpc _ _ =>
        Dashboard.Resolved {| Rest.data := None; Rest.error := Some "503" |}
    end.

End Scenario.

(* ================================================================== *)
(** * Facts about the relational operators *)
(* ================================================================== *)

Module SqlFacts.
Import Sql Spec.

Lemma not_distinct_eq (k k' : option text) :
  not_distinct String.eqb k k' = true <-> k = k'.
Proof.
  destruct k as [x|], k' as [y|]; simpl; split; intro H;
    try discriminate; try reflexivity.
  - apply String.eqb_eq in H. now subst.
  - injection H as ->. apply String.eqb_refl.
Qed.

Lemma is_true_sql_eq_Some (x : text) (k : option text) :
  is_true (sql_eq String.eqb (Some x) k) = not_distinct String.eqb (Some x) k.
Proof.
  destruct k as [y|]; simpl; [destruct (x =? y)%string|]; reflexivity.
Qed.

Lemma is_true_sql_eq_None (k : option text) :
  is_true (sql_eq String.eqb None k) = false.
Proof. reflexivity. Qed.

Lemma filter_filter {A : Type} (p q : A -> bool) (l : list A) :
  filter p (filter q l) = filter (fun x => q x && p x) l.
Proof.
  induction l as [|a l IH]; simpl; [reflexivity|].
  destruct (q a); simpl; [destruct (p a)|]; now rewrite IH.
Qed.

Lemma filter_map_swap {A B : Type} (f : A -> B) (p : B -> bool) (l : list A) :
  filter p (map f l) = map f (filter (fun x => p (f x)) l).
Proof.
  induction l as [|a l IH]; simpl; [reflexivity|].
  destruct (p (f a)); simpl; now rewrite IH.
Qed.

Lemma filter_nothing {A : Type} (p : A -> bool) (l : list A) :
  (forall x, In x l -> p x = false) -> filter p l = [].
Proof.
  induction l as [|a l IH]; simpl; intro H; [reflexivity|].
  rewrite (H a (or_introl eq_refl)). apply IH. intros x Hx. apply H. now right.
Qed.

Lemma filter_everything {A : Type} (p : A -> bool) (l : list A) :
  (forall x, In x l -> p x = true) -> filter p l = l.
Proof.
  induction l as [|a l IH]; simpl; intro H; [reflexivity|].
  rewrite (H a (or_introl eq_refl)). f_equal. apply IH. intros x Hx. apply H. now right.
Qed.

(** ** DISTINCT *)

Lemma key_eq_dec (a b : option text) : {a = b} + {a <> b}.
Proof. decide equality. apply string_dec. Qed.

Lemma DISTINCT_In (k : option text) (ks : list (option text)) :
  In k (DISTINCT ks) <-> In k ks.
Proof.
  induction ks as [|a ks IH]; simpl; [tauto|].
  rewrite filter_In, IH. split.
  - intros [H|[H _]]; auto.
  - intros [H|H]; [now left|].
    destruct (not_distinct String.eqb a k) eqn:E.
    + left. now apply not_distinct_eq.
    + right. now split.
Qed.

Lemma DISTINCT_NoDup (ks : list (option text)) : NoDup (DISTINCT ks).
Proof.
  induction ks as [|a ks IH]; simpl; constructor.
  - rewrite filter_In. intros [_ H].
    assert (E : not_distinct String.eqb a a = true) by now apply not_distinct_eq.
    rewrite E in H. discriminate.
  - now apply NoDup_filter.
Qed.

(** Looking a key up in a duplicate-free list finds it once, or not at
    all. *)
Lemma filter_key_found (x : text) (ks : list (option text)) :
  NoDup ks -> In (Some x) ks ->
  filter (not_distinct String.eqb (Some x)) ks = [Some x].
Proof.
  induction 1 as [|a ks Hna Hnd IH]; [intros []|].
  intros [->|Hin]; cbn [filter].
  - replace (not_distinct String.eqb (Some x) (Some x)) with true
      by (symmetry; now apply not_distinct_eq).
    f_equal.
    apply filter_nothing. intros k Hk.
    destruct (not_distinct String.eqb (Some x) k) eqn:E; [|reflexivity].
    apply not_distinct_eq in E. subst k. contradiction.
  - destruct (not_distinct String.eqb (Some x) a) eqn:E.
    + apply not_distinct_eq in E. subst a. contradiction.
    + now apply IH.
Qed.

Lemma filter_key_absent (x : text) (ks : list (option text)) :
  ~ In (Some x) ks -> filter (not_distinct String.eqb (Some x)) ks = [].
Proof.
  intro Hn. apply filter_nothing. intros k Hk.
  destruct (not_distinct String.eqb (Some x) k) eqn:E; [|reflexivity].
  apply not_distinct_eq in E. subst k. contradiction.
Qed.

(** ** SUM *)

Lemma SUM_nil : SUM [] = None.
Proof. reflexivity. Qed.

Lemma COALESCE_SUM_cons (v : option Z) (vs : list (option Z)) :
  COALESCE (SUM (v :: vs)) 0 = (COALESCE v 0 + COALESCE (SUM vs) 0)%Z.
Proof.
  unfold SUM. simpl. fold (SUM vs).
  destruct v as [x|], (SUM vs) as [a|]; simpl; lia.
Qed.

(** ** The group of a store in [store_totals] *)

Lemma group_is_todays_counts (s : session) (db : database) (x : text) :
  filter (fun c => not_distinct String.eqb (Some x) (dcc_department_number c))
    (counted_today s db)
  = todays_counts_of s db (Some x).
Proof.
  unfold counted_today, todays_counts_of. rewrite filter_filter.
  apply filter_ext. intro c. now rewrite is_true_sql_eq_Some.
Qed.

Lemma todays_counts_of_NULL (s : session) (db : database) :
  todays_counts_of s db None = [].
Proof.
  unfold todays_counts_of. apply filter_nothing. intros c _.
  rewrite is_true_sql_eq_None. apply andb_false_r.
Qed.

Lemma total_of_group (rows : list daily_container_count) (key : option text) (k : supply) :
  total_of k (group_total rows key)
  = SUM (map (count_of k)
           (filter (fun c => not_distinct String.eqb key (dcc_department_number c)) rows)).
Proof. destruct k; reflexivity. Qed.

(** The first join gives every run exactly one row: [store_totals] has one
    row per department, and its totals are the sums over today's counts of
    the run's store. *)
Lemma join_store_totals (s : session) (db : database) (r : active_delivery_run) :
  exists st : option store_total,
    LEFT_JOIN on_store_totals [r] (store_totals s db) = [(r, st)]
    /\ forall k, col (total_of k) st = summed_count s db (r_department_number r) k.
Proof.
  unfold LEFT_JOIN, store_totals, on_store_totals. simpl. rewrite app_nil_r.
  rewrite filter_map_swap. simpl.
  destruct (r_department_number r) as [x|] eqn:Ed.
  - rewrite (filter_ext _ (not_distinct String.eqb (Some x)) (is_true_sql_eq_Some x)).
    destruct (in_dec key_eq_dec (Some x)
                (DISTINCT (map dcc_department_number (counted_today s db))))
      as [Hin|Hout].
    + rewrite (filter_key_found x _ (DISTINCT_NoDup _) Hin). simpl.
      eexists. split; [reflexivity|].
      intro k. simpl. rewrite total_of_group, group_is_todays_counts. reflexivity.
    + rewrite (filter_key_absent x _ Hout). simpl.
      exists None. split; [reflexivity|].
      intro k. simpl. unfold summed_count.
      rewrite <- group_is_todays_counts.
      rewrite filter_nothing; [reflexivity|].
      intros c Hc.
      destruct (not_distinct String.eqb (Some x) (dcc_department_number c)) eqn:E;
        [|reflexivity].
      apply not_distinct_eq in E. exfalso. apply Hout.
      apply DISTINCT_In. rewrite E. now apply in_map.
  - rewrite filter_nothing by (intros; apply is_true_sql_eq_None). simpl.
    exists None. split; [reflexivity|].
    intro k. simpl. unfold summed_count. now rewrite todays_counts_of_NULL.
Qed.

Lemma select_list_deficit_row (s : session) (db : database)
    (r : active_delivery_run) (st : option store_total) (par : option store_supply) :
  (forall k, col (total_of k) st = summed_count s db (r_department_number r) k) ->
  select_list (r, st, par) = deficit_row s db r par.
Proof.
  intro H. unfold select_list, deficit_row, deficit.
  rewrite <- (H Sleeves), <- (H Caps), <- (H Canvases), <- (H Totes),
    <- (H Hardlines), <- (H Softlines).
  destruct st, par; reflexivity.
Qed.

Lemma LEFT_JOIN_cons {A B : Type} (on : A -> B -> option bool)
    (a : A) (l : list A) (r : list B) :
  LEFT_JOIN on (a :: l) r = (LEFT_JOIN on [a] r ++ LEFT_JOIN on l r)%list.
Proof. unfold LEFT_JOIN. simpl. now rewrite app_nil_r. Qed.

Lemma LEFT_JOIN_app {A B : Type} (on : A -> B -> option bool)
    (l l' : list A) (r : list B) :
  LEFT_JOIN on (l ++ l')%list r = (LEFT_JOIN on l r ++ LEFT_JOIN on l' r)%list.
Proof. unfold LEFT_JOIN. apply flat_map_app. Qed.

(** The second join pairs the run with the par-level rows of its store. *)
Lemma join_store_supplies (db : database) (r : active_delivery_run)
    (st : option store_total) :
  LEFT_JOIN on_store_supplies [(r, st)] (store_supplies db)
  = map (fun par => (r, st, par)) (par_rows_of db r).
Proof.
  unfold LEFT_JOIN, par_rows_of, on_store_supplies. simpl. rewrite app_nil_r.
  destruct (filter _ (store_supplies db)) as [|p ps]; simpl; [reflexivity|].
  f_equal. now rewrite map_map.
Qed.

(** The view, run by run: the joins and the WHERE clause act on each run
    on its own, and the deficits are the specification's. *)
Lemma run_supply_needs_by_run (s : session) (db : database) :
  run_supply_needs s db = flat_map (rows_of_run s db) (active_delivery_runs db).
Proof.
  unfold run_supply_needs.
  induction (active_delivery_runs db) as [|r rs IH]; [reflexivity|].
  rewrite LEFT_JOIN_cons, LEFT_JOIN_app, filter_app, map_app, IH.
  cbn [flat_map]. f_equal.
  destruct (join_store_totals s db r) as (st & -> & Hst).
  rewrite join_store_supplies. unfold rows_of_run.
  destruct (created_today s (r_created_at r)) eqn:E.
  - rewrite filter_everything by (intros j Hj; apply in_map_iff in Hj;
      destruct Hj as (par & <- & _); exact E).
    rewrite map_map. apply map_ext. intro par.
    now apply select_list_deficit_row.
  - rewrite filter_nothing by (intros j Hj; apply in_map_iff in Hj;
      destruct Hj as (par & <- & _); exact E).
    reflexivity.
Qed.

End SqlFacts.

(* ================================================================== *)
(** * The supply deficit aggregator *)
(* ================================================================== *)

Module Aggregator.
Import Sql Spec SqlFacts.

(** ** Where a row of the view comes from *)

Lemma run_columns_deficit_row (s : session) (db : database)
    (r : active_delivery_run) (par : option store_supply) :
  run_columns (deficit_row s db r par) = r.
Proof. destruct r; reflexivity. Qed.

Lemma needed_deficit_row (s : session) (db : database)
    (r : active_delivery_run) (par : option store_supply) (k : supply) :
  needed k (deficit_row s db r par)
  = deficit (col (par_of k) par) (summed_count s db (r_department_number r) k).
Proof. destruct k; reflexivity. Qed.

Lemma row_origin (s : session) (db : database) (row : needs_row) :
  In row (run_supply_needs s db) <->
  exists (r : active_delivery_run) (par : option store_supply),
    In r (active_delivery_runs db)
    /\ created_today s (r_created_at r) = true
    /\ In par (par_rows_of db r)
    /\ row = deficit_row s db r par.
Proof.
  rewrite run_supply_needs_by_run, in_flat_map. unfold rows_of_run. split.
  - intros (r & Hr & Hrow).
    destruct (created_today s (r_created_at r)) eqn:E; [|destruct Hrow].
    apply in_map_iff in Hrow. destruct Hrow as (par & <- & Hpar).
    now exists r, par.
  - intros (r & par & Hr & E & Hpar & ->).
    exists r. split; [exact Hr|]. rewrite E. now apply in_map.
Qed.

Lemma par_rows_of_nonempty (db : database) (r : active_delivery_run) :
  par_rows_of db r <> [].
Proof.
  unfold par_rows_of.
  destruct (filter _ (store_supplies db)); simpl; discriminate.
Qed.

Lemma par_rows_of_unmatched (db : database) (r : active_delivery_run) :
  (forall p, In p (store_supplies db) ->
     is_true (sql_eq String.eqb (r_department_number r) (ss_department_number p)) = false) ->
  par_rows_of db r = [None].
Proof.
  intro H. unfold par_rows_of. now rewrite filter_nothing.
Qed.

(** With one par-level row per store a run meets at most one of them. *)
Lemma at_most_one_par_row (x : text) (ps : list store_supply) :
  NoDup (department_numbers ps) ->
  (List.length
     (filter (fun p => not_distinct String.eqb (Some x) (ss_department_number p)) ps)
   <= 1)%nat.
Proof.
  induction ps as [|p ps IH]; [simpl; lia|].
  unfold department_numbers. cbn [flat_map filter]. fold (department_numbers ps).
  destruct (ss_department_number p) as [d|] eqn:Ed; cbn [app]; intro H.
  - inversion H as [|? ? Hnotin Hnd]; subst.
    destruct (not_distinct String.eqb (Some x) (Some d)) eqn:E.
    + apply not_distinct_eq in E. injection E as <-.
      rewrite filter_nothing; [simpl; lia|].
      intros q Hq.
      destruct (not_distinct String.eqb (Some x) (ss_department_number q)) eqn:Eq;
        [|reflexivity].
      apply not_distinct_eq in Eq. exfalso. apply Hnotin.
      unfold department_numbers. apply in_flat_map. exists q.
      rewrite <- Eq. simpl. auto.
    + now apply IH.
  - cbn [not_distinct]. now apply IH.
Qed.

Lemma one_par_row (db : database) (r : active_delivery_run) :
  one_par_row_per_store db -> exists par, par_rows_of db r = [par].
Proof.
  intro H. unfold par_rows_of, on_store_supplies. simpl.
  destruct (r_department_number r) as [x|].
  - rewrite (filter_ext _
               (fun p => not_distinct String.eqb (Some x) (ss_department_number p))
               (fun p => is_true_sql_eq_Some x (ss_department_number p))).
    pose proof (at_most_one_par_row x _ H) as Hlen.
    destruct (filter _ (store_supplies db)) as [|p [|q ps]]; simpl in *.
    + now exists None.
    + now exists (Some p).
    + lia.
  - rewrite filter_nothing by (intros; apply is_true_sql_eq_None).
    now exists None.
Qed.

(** The view reads the counts through [counted_today] only. *)
Lemma run_supply_needs_counts (s : session) (db db' : database) :
  counted_today s db = counted_today s db' ->
  store_supplies db = store_supplies db' ->
  active_delivery_runs db = active_delivery_runs db' ->
  run_supply_needs s db = run_supply_needs s db'.
Proof.
  intros Hc Hs Hr. unfold run_supply_needs, store_totals. now rewrite Hc, Hs, Hr.
Qed.

(** The view reads the clock through [CURRENT_DATE] and the time zone
    only. *)
Lemma created_today_same_day (s s' : session) (t : option timestamptz) :
  time_zone s = time_zone s' -> CURRENT_DATE s = CURRENT_DATE s' ->
  created_today s t = created_today s' t.
Proof.
  intros Hz Hd. unfold created_today, DATE. now rewrite Hz, Hd.
Qed.

Lemma run_supply_needs_same_day (s s' : session) (db : database) :
  time_zone s = time_zone s' -> CURRENT_DATE s = CURRENT_DATE s' ->
  run_supply_needs s db = run_supply_needs s' db.
Proof.
  intros Hz Hd.
  assert (Hc : counted_today s db = counted_today s' db).
  { unfold counted_today. apply filter_ext. intro c.
    now apply created_today_same_day. }
  unfold run_supply_needs, store_totals. rewrite Hc. f_equal.
  apply filter_ext. intro j. now apply created_today_same_day.
Qed.

(** A run created today has a row in the view. *)
Lemma deficit_row_exists (s : session) (db : database) (r : active_delivery_run) :
  In r (active_delivery_runs db) -> created_today s (r_created_at r) = true ->
  (exists row, In row (run_supply_needs s db) /\ run_columns row = r)
  /\ exists par, In par (par_rows_of db r).
Proof.
  intros Hr Htoday.
  destruct (par_rows_of db r) as [|par pars] eqn:E;
    [now apply par_rows_of_nonempty in E|].
  split; [|exists par; simpl; auto].
  exists (deficit_row s db r par). split.
  - apply row_origin. exists r, par. rewrite E. simpl. auto.
  - apply run_columns_deficit_row.
Qed.

(** ** The deficits *)

(** C1. Every run created today has a row in the view, and every row of the
    view comes from a run [r] and a par-level row [par] of its store (the
    NULL row when it has none) such that each of the six deficits is
    COALESCE(par level, 0) - COALESCE(sum of today's counts of [r]'s store, 0):
    a difference of integers, negative when the counts exceed the par
    level. *)
Theorem deficit_is_par_minus_todays_counts (s : session) (db : database) :
  (forall r, In r (active_delivery_runs db) -> created_today s (r_created_at r) = true ->
     exists row, In row (run_supply_needs s db) /\ run_columns row = r)
  /\ (forall row, In row (run_supply_needs s db) ->
       exists (r : active_delivery_run) (par : option store_supply),
         In r (active_delivery_runs db)
         /\ In par (par_rows_of db r)
         /\ run_columns row = r
         /\ forall k : supply,
              needed k row
              = (COALESCE (col (par_of k) par) 0
                 - COALESCE (summed_count s db (r_department_number r) k) 0)%Z).
Proof.
  split.
  - intros r Hr Htoday.
    destruct (par_rows_of db r) as [|par pars] eqn:E;
      [now apply par_rows_of_nonempty in E|].
    exists (deficit_row s db r par). split.
    + apply row_origin. exists r, par. rewrite E. simpl. auto.
    + apply run_columns_deficit_row.
  - intros row Hrow. apply row_origin in Hrow.
    destruct Hrow as (r & par & Hr & _ & Hpar & ->).
    exists r, par. repeat split; try assumption.
    + apply run_columns_deficit_row.
    + intro k. apply needed_deficit_row.
Qed.

(** At the desk, Cheviot (par 10 sleeves) counted 50 sleeves today: its run
    shows -40. *)
Lemma deficit_is_par_minus_todays_counts_witness :
  In Scenario.cheviot_row (run_supply_needs Scenario.clock Scenario.desk)
  /\ needed Sleeves Scenario.cheviot_row = (-40)%Z
  /\ exists (r : active_delivery_run) (par : option store_supply),
       In r (active_delivery_runs Scenario.desk)
       /\ In par (par_rows_of Scenario.desk r)
       /\ run_columns Scenario.cheviot_row = r
       /\ forall k : supply,
            needed k Scenario.cheviot_row
            = (COALESCE (col (par_of k) par) 0
               - COALESCE
                   (summed_count Scenario.clock Scenario.desk (r_department_number r) k)
                   0)%Z.
Proof.
  assert (H : In Scenario.cheviot_row (run_supply_needs Scenario.clock Scenario.desk))
    by (vm_compute; right; left; reflexivity).
  split; [exact H|]. split; [reflexivity|].
  exact (proj2 (deficit_is_par_minus_todays_counts Scenario.clock Scenario.desk)
           Scenario.cheviot_row H).
Defined.

(** C2. A count fact that is not dated today contributes nothing: with it or
    without it, anywhere among the count facts, the view has the same rows
    and the per-store totals are the same. *)
Theorem stale_count_contributes_nothing (s : session) (db : database)
    (c : daily_container_count) (before after : list daily_container_count) :
  created_today s (dcc_created_at c) = false ->
  run_supply_needs s (with_counts db (before ++ c :: after))
  = run_supply_needs s (with_counts db (before ++ after))
  /\ store_totals s (with_counts db (before ++ c :: after))
     = store_totals s (with_counts db (before ++ after)).
Proof.
  intro Hstale.
  assert (Hc : counted_today s (with_counts db (before ++ c :: after))
               = counted_today s (with_counts db (before ++ after))).
  { unfold counted_today. simpl. rewrite !filter_app. simpl. now rewrite Hstale. }
  split.
  - now apply run_supply_needs_counts.
  - unfold store_totals. now rewrite Hc.
Qed.

Lemma stale_count_contributes_nothing_witness :
  run_supply_needs Scenario.clock
    (with_counts Scenario.desk
       (Scenario.counts_before ++ Scenario.stale_count :: Scenario.counts_after))
  = run_supply_needs Scenario.clock
      (with_counts Scenario.desk (Scenario.counts_before ++ Scenario.counts_after))
  /\ store_totals Scenario.clock
       (with_counts Scenario.desk
          (Scenario.counts_before ++ Scenario.stale_count :: Scenario.counts_after))
     = store_totals Scenario.clock
         (with_counts Scenario.desk (Scenario.counts_before ++ Scenario.counts_after)).
Proof.
  apply (stale_count_contributes_nothing Scenario.clock Scenario.desk
           Scenario.stale_count Scenario.counts_before Scenario.counts_after).
  reflexivity.
Defined.

(** C3. A run created today whose store has no par-level row still has a row
    in the view, and in every row of that run each of the six deficits is
    minus today's summed count of the store: zero when the store has no
    count today. *)
Theorem run_without_par_levels (s : session) (db : database) (r : active_delivery_run) :
  In r (active_delivery_runs db) ->
  created_today s (r_created_at r) = true ->
  (forall p, In p (store_supplies db) ->
     is_true (sql_eq String.eqb (r_department_number r) (ss_department_number p)) = false) ->
  (exists row, In row (run_supply_needs s db) /\ run_columns row = r)
  /\ forall row, In row (run_supply_needs s db) -> run_columns row = r ->
       forall k : supply,
         needed k row = (- COALESCE (summed_count s db (r_department_number r) k) 0)%Z
         /\ (todays_counts_of s db (r_department_number r) = [] -> needed k row = 0%Z).
Proof.
  intros Hr Htoday Hnone.
  pose proof (par_rows_of_unmatched db r Hnone) as Hpar.
  split.
  - exists (deficit_row s db r None). split.
    + apply row_origin. exists r, None. rewrite Hpar. simpl. auto.
    + apply run_columns_deficit_row.
  - intros row Hrow Hcols k. apply row_origin in Hrow.
    destruct Hrow as (r' & par & _ & _ & Hin & ->).
    rewrite run_columns_deficit_row in Hcols. subst r'.
    rewrite Hpar in Hin. destruct Hin as [<-|[]].
    rewrite needed_deficit_row. unfold deficit. simpl. split; [lia|].
    intro Hempty. unfold summed_count. rewrite Hempty. reflexivity.
Qed.

(** The run for department 7777, which has no par levels, shows minus the
    3 sleeves counted there today. *)
Lemma run_without_par_levels_witness :
  (exists row, In row (run_supply_needs Scenario.clock Scenario.desk)
               /\ run_columns row = Scenario.unlisted_run)
  /\ forall row, In row (run_supply_needs Scenario.clock Scenario.desk) ->
       run_columns row = Scenario.unlisted_run ->
       forall k : supply,
         needed k row
         = (- COALESCE
                (summed_count Scenario.clock Scenario.desk
                   (r_department_number Scenario.unlisted_run) k) 0)%Z
         /\ (todays_counts_of Scenario.clock Scenario.desk
               (r_department_number Scenario.unlisted_run) = [] ->
             needed k row = 0%Z).
Proof.
  apply (run_without_par_levels Scenario.clock Scenario.desk Scenario.unlisted_run).
  - simpl. auto.
  - reflexivity.
  - intros p Hp. vm_compute in Hp.
    repeat (destruct Hp as [<-|Hp]; [reflexivity|]). destruct Hp.
Defined.

(** X2. A run whose store has no count fact dated today shows the par levels
    themselves (zero for a par level that is NULL or missing). *)
Theorem run_without_counts_today (s : session) (db : database) (row : needs_row) :
  In row (run_supply_needs s db) ->
  todays_counts_of s db (department_number row) = [] ->
  exists par : option store_supply,
    In par (par_rows_of db (run_columns row))
    /\ forall k : supply, needed k row = COALESCE (col (par_of k) par) 0.
Proof.
  intros Hrow Hnone. apply row_origin in Hrow.
  destruct Hrow as (r & par & _ & _ & Hpar & ->).
  rewrite run_columns_deficit_row. exists par. split; [exact Hpar|].
  intro k. rewrite needed_deficit_row. unfold deficit, summed_count.
  simpl in Hnone. rewrite Hnone. simpl. lia.
Qed.

Lemma run_without_counts_today_witness :
  exists par : option store_supply,
    In par (par_rows_of
              (with_counts Scenario.desk [Scenario.stale_count])
              (run_columns
                 (deficit_row Scenario.clock
                    (with_counts Scenario.desk [Scenario.stale_count])
                    Scenario.tri_county_run (Some Scenario.tri_county_par))))
    /\ forall k : supply,
         needed k
           (deficit_row Scenario.clock
              (with_counts Scenario.desk [Scenario.stale_count])
              Scenario.tri_county_run (Some Scenario.tri_county_par))
         = COALESCE (col (par_of k) par) 0.
Proof.
  apply (run_without_counts_today Scenario.clock
           (with_counts Scenario.desk [Scenario.stale_count])).
  - vm_compute. left. reflexivity.
  - reflexivity.
Defined.

(** ** Which runs the view lists *)

Lemma map_run_columns_by_run (s : session) (db : database) :
  one_par_row_per_store db ->
  forall runs : list active_delivery_run,
    map run_columns (flat_map (rows_of_run s db) runs)
    = filter (fun r => created_today s (r_created_at r)) runs.
Proof.
  intros Hone runs. induction runs as [|r rs IH]; [reflexivity|].
  cbn [flat_map filter]. rewrite map_app, IH. unfold rows_of_run at 1.
  destruct (created_today s (r_created_at r)); [|reflexivity].
  destruct (one_par_row db r Hone) as (par & ->). simpl.
  now rewrite run_columns_deficit_row.
Qed.

(** C4. A run that was not created today has no row in the view, whatever
    the counts and par levels are; and, [store_supplies] holding one row per
    store, the view has exactly one row per run created today: the run
    columns of its rows are the runs created today, each once. *)
Theorem only_todays_runs (s : session) (db : database) :
  (forall r, created_today s (r_created_at r) = false ->
     ~ exists row, In row (run_supply_needs s db) /\ run_columns row = r)
  /\ (one_par_row_per_store db ->
      map run_columns (run_supply_needs s db)
      = filter (fun r => created_today s (r_created_at r)) (active_delivery_runs db)).
Proof.
  split.
  - intros r Hold (row & Hrow & Hcols). apply row_origin in Hrow.
    destruct Hrow as (r' & par & _ & Htoday & _ & ->).
    rewrite run_columns_deficit_row in Hcols. subst r'.
    rewrite Hold in Htoday. discriminate.
  - intro Hone. rewrite run_supply_needs_by_run.
    now apply map_run_columns_by_run.
Qed.

Lemma desk_one_par_row_per_store : one_par_row_per_store Scenario.desk.
Proof.
  unfold one_par_row_per_store. vm_compute.
  repeat (constructor;
          [ simpl; intro H;
            repeat (destruct H as [H|H]; [discriminate H|]); exact H | ]).
  constructor.
Qed.

(** At the desk, yesterday's run for Tri-County is not listed and the three
    runs of today are, once each. *)
Lemma only_todays_runs_witness :
  (~ exists row, In row (run_supply_needs Scenario.clock Scenario.desk)
                 /\ run_columns row = Scenario.yesterdays_run)
  /\ map run_columns (run_supply_needs Scenario.clock Scenario.desk)
     = [Scenario.tri_county_run; Scenario.cheviot_run; Scenario.unlisted_run].
Proof.
  destruct (only_todays_runs Scenario.clock Scenario.desk) as [Hold Hall].
  split.
  - apply Hold. reflexivity.
  - rewrite (Hall desk_one_par_row_per_store). reflexivity.
Defined.

(** ** Reading twice *)

(** C7. Reading the view leaves the tables as they are, and a second read
    with no write in between, on the same day, returns the same rows
    as the first: the rows are a function of the date, the count facts, the
    runs and the par levels. *)
Theorem read_is_repeatable (s s' : session) (db : database) :
  time_zone s = time_zone s' ->
  CURRENT_DATE s = CURRENT_DATE s' ->
  snd (read_run_supply_needs s db) = db
  /\ snd (read_run_supply_needs s' (snd (read_run_supply_needs s db))) = db
  /\ fst (read_run_supply_needs s' (snd (read_run_supply_needs s db)))
     = fst (read_run_supply_needs s db).
Proof.
  intros Hz Hd. unfold read_run_supply_needs. simpl.
  repeat split. symmetry. now apply run_supply_needs_same_day.
Qed.

Lemma read_is_repeatable_witness :
  snd (read_run_supply_needs Scenario.clock Scenario.desk) = Scenario.desk
  /\ snd (read_run_supply_needs Scenario.later_that_day
            (snd (read_run_supply_needs Scenario.clock Scenario.desk))) = Scenario.desk
  /\ fst (read_run_supply_needs Scenario.later_that_day
            (snd (read_run_supply_needs Scenario.clock Scenario.desk)))
     = fst (read_run_supply_needs Scenario.clock Scenario.desk).
Proof.
  apply (read_is_repeatable Scenario.clock Scenario.later_that_day Scenario.desk).
  - reflexivity.
  - reflexivity.
Defined.

(** ** Tri-County *)

Lemma joined_department (x : text) (k : option text) :
  is_true (sql_eq String.eqb (Some x) k) = true -> k = Some x.
Proof.
  rewrite is_true_sql_eq_Some. intro H. apply not_distinct_eq in H. now symmetry.
Qed.

(** C9. Tri-County is department 9011.  When [store_supplies] gives it a par
    level of 40 sleeves and today's count facts of the store are two rows
    whose sleeves sum to 15, every run of Tri-County created today has a row
    in the view and each such row has [sleeves_needed = 25]. *)
Theorem tri_county_sleeves_needed (s : session) (db : database)
    (c1 c2 : daily_container_count) :
  (exists p, In p (store_supplies db) /\ ss_department_number p = Some "9011") ->
  (forall p, In p (store_supplies db) -> ss_department_number p = Some "9011" ->
     ss_sleeves p = Some 40%Z) ->
  todays_counts_of s db (Some "9011") = [c1; c2] ->
  (COALESCE (dcc_sleeves c1) 0 + COALESCE (dcc_sleeves c2) 0 = 15)%Z ->
  forall r, active_run_of s db "9011" r ->
    (exists row, In row (run_supply_needs s db) /\ run_columns row = r)
    /\ forall row, In row (run_supply_needs s db) -> run_columns row = r ->
         sleeves_needed row = 25%Z.
Proof.
  intros (p0 & Hp0 & Hd0) Hpar Hcounts Hsum r (Hr & Htoday & Hdept).
  split.
  - apply (proj1 (deficit_row_exists s db r Hr Htoday)).
  - intros row Hrow Hcols. apply row_origin in Hrow.
    destruct Hrow as (r' & par & _ & _ & Hin & ->).
    rewrite run_columns_deficit_row in Hcols. subst r'.
    change (sleeves_needed (deficit_row s db r par))
      with (needed Sleeves (deficit_row s db r par)).
    rewrite needed_deficit_row. unfold deficit, summed_count.
    unfold text in *. rewrite Hdept, Hcounts. cbn [map count_of].
    rewrite !COALESCE_SUM_cons, SUM_nil.
    assert (Hlevel : col (par_of Sleeves) par = Some 40%Z).
    { unfold par_rows_of, on_store_supplies in Hin. cbn [fst] in Hin.
      rewrite Hdept in Hin.
      destruct (filter _ (store_supplies db)) as [|q qs] eqn:E.
      - exfalso.
        assert (Hq : In p0 (filter
                     (fun p => is_true (sql_eq String.eqb (Some "9011")
                                          (ss_department_number p)))
                     (store_supplies db))).
        { apply filter_In. split; [exact Hp0|]. rewrite Hd0. reflexivity. }
        rewrite E in Hq. destruct Hq.
      - apply in_map_iff in Hin. destruct Hin as (q' & <- & Hq').
        rewrite <- E in Hq'. apply filter_In in Hq'. destruct Hq' as [Hq1 Hq2].
        simpl. apply Hpar; [exact Hq1|]. exact (joined_department _ _ Hq2). }
    rewrite Hlevel. change (COALESCE (Some 40%Z) 0%Z) with 40%Z.
    change (COALESCE None 0%Z) with 0%Z. lia.
Qed.

(** At the desk: Tri-County's par level is the 40 sleeves of the initial
    data of [stores], and 10 and 5 sleeves were counted there today. *)
Lemma tri_county_sleeves_needed_witness :
  (exists row, In row (run_supply_needs Scenario.clock Scenario.desk)
               /\ run_columns row = Scenario.tri_county_run)
  /\ forall row, In row (run_supply_needs Scenario.clock Scenario.desk) ->
       run_columns row = Scenario.tri_county_run ->
       sleeves_needed row = 25%Z.
Proof.
  apply (tri_county_sleeves_needed Scenario.clock Scenario.desk
           (Scenario.sleeves_counted "9011" 10 (Scenario.at_day 20100 600))
           (Scenario.sleeves_counted "9011" 5 (Scenario.at_day 20100 1200))).
  - exists Scenario.tri_county_par. split; [simpl; auto | reflexivity].
  - intros p Hp Hd. vm_compute in Hp.
    repeat (destruct Hp as [<-|Hp]; [first [reflexivity | discriminate Hd]|]).
    destruct Hp.
  - reflexivity.
  - reflexivity.
  - repeat split. simpl. auto.
Defined.

End Aggregator.

(* ================================================================== *)
(** * Ordered answers *)
(* ================================================================== *)

Module RestFacts.
Import Rest.

Section Sorting.
Context {R : Type}.
Variable before : R -> R -> bool.
Hypothesis before_total : forall x y, before x y = true \/ before y x = true.

Let ordered (x y : R) : Prop := before x y = true.

Lemma insert_row_perm (x : R) (l : list R) :
  Permutation (x :: l) (insert_row before x l).
Proof.
  induction l as [|y l IH]; simpl; [reflexivity|].
  destruct (before x y); [reflexivity|].
  rewrite perm_swap. now apply perm_skip.
Qed.

Lemma sort_rows_perm (l : list R) : Permutation l (sort_rows before l).
Proof.
  induction l as [|x l IH]; simpl; [reflexivity|].
  rewrite <- insert_row_perm. now apply perm_skip.
Qed.

Lemma insert_row_head (x y : R) (l : list R) :
  ordered y x -> HdRel ordered y l -> HdRel ordered y (insert_row before x l).
Proof.
  intros Hyx Hhd. destruct l as [|z l]; simpl; [now constructor|].
  destruct (before x z); constructor; [exact Hyx|].
  now inversion Hhd.
Qed.

Lemma insert_row_sorted (x : R) (l : list R) :
  Sorted ordered l -> Sorted ordered (insert_row before x l).
Proof.
  induction 1 as [|y l Hs IH Hhd]; simpl; [repeat constructor|].
  destruct (before x y) eqn:E.
  - constructor; [now constructor|]. constructor. exact E.
  - constructor; [exact IH|].
    apply insert_row_head; [|exact Hhd].
    destruct (before_total x y) as [H|H]; [congruence|exact H].
Qed.

Lemma sort_rows_sorted (l : list R) : Sorted ordered (sort_rows before l).
Proof.
  induction l as [|x l IH]; simpl; [constructor|].
  now apply insert_row_sorted.
Qed.

End Sorting.

(** A sorted list stays sorted for a relation that follows from the first
    on the members of the list. *)
Lemma Sorted_on_members {R : Type} (P : R -> Prop) (ord ord' : R -> R -> Prop)
    (l : list R) :
  (forall x y, P x -> P y -> ord x y -> ord' x y) ->
  Forall P l -> Sorted ord l -> Sorted ord' l.
Proof.
  intros Himp Hall Hs. induction Hs as [|x l Hs IH Hhd]; [constructor|].
  inversion Hall as [|? ? Hx Hl]; subst.
  constructor; [now apply IH|].
  destruct Hhd as [|y l' Hxy]; constructor.
  inversion Hl; subst. now apply Himp.
Qed.

Section Collation.
Variable collate : string -> string -> bool.
Hypothesis collate_total : forall a b, collate a b = true \/ collate b a = true.

Lemma value_leb_total (a b : value) :
  value_leb collate a b = true \/ value_leb collate b a = true.
Proof.
  destruct a as [|x|x], b as [|y|y]; simpl; auto.
  destruct (Z.leb_spec x y); [now left|right].
  apply Z.leb_le. lia.
Qed.

Lemma placed_before_total (ascending : bool) (a b : value) :
  placed_before collate ascending a b = true
  \/ placed_before collate ascending b a = true.
Proof.
  destruct ascending; simpl; apply value_leb_total.
Qed.

(** The answer to an ordered query over a column the relation has: all
    the rows, each next to one it may stand before. *)
Lemma answer_ordered {R : Type} `{Relation R} (q : query) (rows : list R)
    (c : string) (ascending : bool) (key : R -> value) :
  ordering q = Some (c, ascending) ->
  column c = Some key ->
  exists out,
    answer collate q rows = {| data := Some out; error := None |}
    /\ Permutation rows out
    /\ Sorted (fun x y => placed_before collate ascending (key x) (key y) = true) out.
Proof.
  intros Hq Hc. unfold answer. rewrite Hq, Hc.
  eexists. split; [reflexivity|]. split.
  - apply sort_rows_perm.
  - apply (sort_rows_sorted
             (fun x y => placed_before collate ascending (key x) (key y))).
    intros x y. apply placed_before_total.
Qed.

End Collation.

End RestFacts.

(* ================================================================== *)
(** * The dashboard's operations *)
(* ================================================================== *)

Module DashboardFacts.
Import Dashboard.

(** ** What the reads do *)

Lemma run_fetchStores (srv : service) (st : state) :
  run srv fetchStores st
  = {| result := Normal tt;
       final :=
         match srv _ (select_stores stores_query) with
         | Resolved {| Rest.data := d; Rest.error := None |} => setStores (or_empty d) st
         | _ => setError (Some "Failed to fetch stores") st
         end;
       requests := [Select stores_query] |}.
Proof.
  unfold fetchStores, try_catch, seq, await. simpl.
  destruct (srv _ (select_stores stores_query)) as [[d [e|]]|]; reflexivity.
Qed.

Lemma run_fetchRuns (srv : service) (st : state) :
  run srv fetchRuns st
  = {| result := Normal tt;
       final :=
         setLoading false
           match srv _ (select_runs runs_query) with
           | Resolved {| Rest.data := d; Rest.error := None |} => setRuns (or_empty d) st
           | _ => setError (Some "Failed to fetch delivery runs") st
           end;
       requests := [Select runs_query] |}.
Proof.
  unfold fetchRuns, try_finally, try_catch, seq, await. simpl.
  destruct (srv _ (select_runs runs_query)) as [[d [e|]]|]; reflexivity.
Qed.

(** The rows of the view carry a creation time. *)
Lemma view_rows_dated (s : Sql.session) (db : Sql.database) :
  Forall (fun row => exists t, Sql.created_at row = Some t) (Sql.run_supply_needs s db).
Proof.
  apply Forall_forall. intros row Hrow. apply Aggregator.row_origin in Hrow.
  destruct Hrow as (r & par & _ & Htoday & _ & ->). simpl.
  destruct (Sql.r_created_at r) as [t|]; [now exists t|discriminate].
Qed.

(** *** The reads against the database *)

Lemma run_fetchStores_resolved (srv : service) (st : state)
    (a : Rest.response (list Store.t)) :
  srv _ (select_stores stores_query) = Resolved a ->
  final (run srv fetchStores st)
  = match Rest.error a with
    | Some _ => setError (Some "Failed to fetch stores") st
    | None => setStores (or_empty (Rest.data a)) st
    end.
Proof.
  intro H. rewrite run_fetchStores, H. simpl.
  destruct a as [d [e|]]; reflexivity.
Qed.

Lemma run_fetchRuns_resolved (srv : service) (st : state)
    (a : Rest.response (list DeliveryRun.t)) :
  srv _ (select_runs runs_query) = Resolved a ->
  final (run srv fetchRuns st)
  = setLoading false
      match Rest.error a with
      | Some _ => setError (Some "Failed to fetch delivery runs") st
      | None => setRuns (or_empty (Rest.data a)) st
      end.
Proof.
  intro H. rewrite run_fetchRuns, H. simpl.
  destruct a as [d [e|]]; reflexivity.
Qed.

(** C6. The store read does not return the store rows.  [fetchStores] asks
    for [stores] ordered by [store_name]; the table [stores] has the columns
    of its declaration, where the name of a store is in [name], and the
    request is refused: whatever the table holds, the store list of the
    dashboard stays as it was, the error "Failed to fetch stores" is shown,
    and one request was sent.  The component itself keeps what a read
    returns: given rows and no error, [fetchStores] makes them its store
    list, in the order given. *)
Theorem store_read_is_refused (b : Backend.t) (rd : Backend.reading)
    (procedures : string -> list (string * string) -> settled unit) (st : state) :
  Rest.relation stores_query = "stores"
  /\ Rest.ordering stores_query = Some ("store_name", true)
  /\ Rest.data (Backend.serve b stores_query) = None
  /\ Rest.error (Backend.serve b stores_query) <> None
  /\ requests (run (Backend.service b rd procedures) fetchStores st)
     = [Select stores_query]
  /\ stores (final (run (Backend.service b rd procedures) fetchStores st)) = stores st
  /\ error (final (run (Backend.service b rd procedures) fetchStores st))
     = Some "Failed to fetch stores"
  /\ forall (srv : service) (rows : list Store.t),
       srv _ (select_stores stores_query)
       = Resolved {| Rest.data := Some rows; Rest.error := None |} ->
       stores (final (run srv fetchStores st)) = rows
       /\ error (final (run srv fetchStores st)) = error st.
Proof.
  repeat split; try discriminate;
    rewrite (run_fetchStores_resolved _ _ _ H); reflexivity.
Qed.

(** At the office the table holds the twenty stores of its initial data
    and the dashboard, from its initial state, lists none. *)
Lemma store_read_is_refused_witness :
  List.length (Backend.stores Scenario.office) = 20%nat
  /\ stores (final (run (Backend.service Scenario.office Scenario.read_rows
                           Scenario.accepting)
                      fetchStores initial))
     = []
  /\ error (final (run (Backend.service Scenario.office Scenario.read_rows
                          Scenario.accepting)
                     fetchStores initial))
     = Some "Failed to fetch stores".
Proof.
  destruct (store_read_is_refused Scenario.office Scenario.read_rows
              Scenario.accepting initial)
    as (_ & _ & _ & _ & _ & Hstores & Herror & _).
  split; [reflexivity|]. split; assumption.
Defined.

(** Ordered by the column the table has, the same read would return every
    store, names ascending. *)
Lemma store_read_by_name (b : Backend.t) :
  (forall x y, Backend.collation b x y = true \/ Backend.collation b y x = true) ->
  exists out,
    Backend.serve b (Rest.order "name" None (Rest.select "*" (Rest.from "stores")))
    = {| Rest.data := Some (map Backend.stores_row out); Rest.error := None |}
    /\ Permutation (Backend.stores b) out
    /\ Sorted
         (fun x y => Backend.collation b (Stores.name x) (Stores.name y) = true) out.
Proof.
  intro Htotal.
  destruct (RestFacts.answer_ordered (Backend.collation b) Htotal
              (Rest.order "name" None (Rest.select "*" (Rest.from "stores")))
              (Backend.stores b) "name" true (fun r => Rest.VText (Stores.name r))
              eq_refl eq_refl) as (out & Hans & Hperm & Hsorted).
  exists out. split; [|split; assumption].
  unfold Backend.serve. cbn [Rest.relation Rest.order Rest.select Rest.from].
  cbn [String.eqb Ascii.eqb Bool.eqb]. unfold Backend.rows_of. now rewrite Hans.
Qed.

(** X22. A dashboard connected to the database ends the run read with the
    rows of the view as its run list, newest first: every row of the view
    is there, read as the component reads rows, and a row stands before
    those created no later.  One request is sent, the error is left as it
    was and the spinner is off. *)
Theorem run_read_is_newest_first (b : Backend.t) (rd : Backend.reading)
    (procedures : string -> list (string * string) -> settled unit) (st : state) :
  (forall x y, Backend.collation b x y = true \/ Backend.collation b y x = true) ->
  exists out : list Sql.needs_row,
    Permutation (Sql.run_supply_needs (Backend.clock b) (Backend.tables b)) out
    /\ Sorted Spec.not_older out
    /\ runs (final (run (Backend.service b rd procedures) fetchRuns st))
       = map (fun r => Backend.as_run rd (Backend.needs_row r)) out
    /\ error (final (run (Backend.service b rd procedures) fetchRuns st)) = error st
    /\ loading (final (run (Backend.service b rd procedures) fetchRuns st)) = false
    /\ requests (run (Backend.service b rd procedures) fetchRuns st)
       = [Select runs_query].
Proof.
  intro Htotal.
  destruct (RestFacts.answer_ordered (Backend.collation b) Htotal runs_query
              (Sql.run_supply_needs (Backend.clock b) (Backend.tables b))
              "created_at" false (fun r => Rest.of_int (Sql.created_at r))
              eq_refl eq_refl) as (out & Hans & Hperm & Hsorted).
  exists out. split; [exact Hperm|]. split.
  { apply (RestFacts.Sorted_on_members
             (fun row => exists t, Sql.created_at row = Some t)
             (fun x y =>
                Rest.placed_before (Backend.collation b) false
                  (Rest.of_int (Sql.created_at x)) (Rest.of_int (Sql.created_at y))
                = true));
      [| |exact Hsorted].
    - intros x y (tx & Hx) (ty & Hy) Hxy. exists tx, ty.
      rewrite Hx, Hy in *. simpl in Hxy. apply Z.leb_le in Hxy. auto.
    - apply Forall_forall. intros row Hrow.
      apply (Permutation_in _ (Permutation_sym Hperm)) in Hrow.
      pose proof (view_rows_dated (Backend.clock b) (Backend.tables b)) as Hall.
      rewrite Forall_forall in Hall. now apply Hall. }
  assert (Hsrv : Backend.service b rd procedures _ (select_runs runs_query)
                 = Resolved
                     {| Rest.data :=
                          Some (map (fun r => Backend.as_run rd (Backend.needs_row r)) out);
                        Rest.error := None |}).
  { unfold Backend.service, Backend.resolved, Backend.serve.
    cbn [Rest.relation runs_query Rest.order Rest.select Rest.from].
    cbn [String.eqb Ascii.eqb Bool.eqb]. unfold Backend.rows_of.
    rewrite Hans. cbn [Rest.data Rest.error option_map]. now rewrite map_map. }
  rewrite (run_fetchRuns_resolved _ st _ Hsrv), run_fetchRuns.
  repeat split.
Qed.

(** At the office the dashboard lists run-4, run-2 and run-1, in this
    order: the newest of the three runs of today first. *)
Lemma run_read_is_newest_first_witness :
  map DeliveryRun.id
    (runs (final (run (Backend.service Scenario.office Scenario.read_rows
                         Scenario.accepting)
                    fetchRuns initial)))
  = ["run-4"; "run-2"; "run-1"]
  /\ exists out : list Sql.needs_row,
       Permutation (Sql.run_supply_needs Scenario.clock Scenario.desk) out
       /\ Sorted Spec.not_older out
       /\ runs (final (run (Backend.service Scenario.office Scenario.read_rows
                              Scenario.accepting)
                         fetchRuns initial))
          = map (fun r => Backend.as_run Scenario.read_rows (Backend.needs_row r)) out
       /\ error (final (run (Backend.service Scenario.office Scenario.read_rows
                               Scenario.accepting)
                          fetchRuns initial))
          = None
       /\ loading (final (run (Backend.service Scenario.office Scenario.read_rows
                                 Scenario.accepting)
                            fetchRuns initial))
          = false
       /\ requests (run (Backend.service Scenario.office Scenario.read_rows
                           Scenario.accepting)
                      fetchRuns initial)
          = [Select runs_query].
Proof.
  split; [reflexivity|].
  exact (run_read_is_newest_first Scenario.office Scenario.read_rows
           Scenario.accepting initial String.leb_total).
Defined.

(** ** Failed reads *)

(** C8. When the store read fails (rejected, or resolved with an error) the
    error shown is the fixed message "Failed to fetch stores", whatever the
    cause, the store list and the run list are as before, and the service
    got one request; likewise for the run read, with "Failed to fetch
    delivery runs". *)
Theorem read_failure_keeps_loaded_data (srv : service) (st : state) :
  (failed (srv _ (select_stores stores_query)) = true ->
     error (final (run srv fetchStores st)) = Some "Failed to fetch stores"
     /\ stores (final (run srv fetchStores st)) = stores st
     /\ runs (final (run srv fetchStores st)) = runs st
     /\ requests (run srv fetchStores st) = [Select stores_query])
  /\ (failed (srv _ (select_runs runs_query)) = true ->
      error (final (run srv fetchRuns st)) = Some "Failed to fetch delivery runs"
      /\ runs (final (run srv fetchRuns st)) = runs st
      /\ stores (final (run srv fetchRuns st)) = stores st
      /\ requests (run srv fetchRuns st) = [Select runs_query]).
Proof.
  split; intro Hfailed.
  - rewrite run_fetchStores. simpl.
    destruct (srv _ (select_stores stores_query)) as [[d [e|]]|];
      try discriminate Hfailed; repeat split.
  - rewrite run_fetchRuns. simpl.
    destruct (srv _ (select_runs runs_query)) as [[d [e|]]|];
      try discriminate Hfailed; repeat split.
Qed.

(** With a run list on display and the service down, listing the stores
    leaves the store list empty, flags the error and keeps the runs. *)
Lemma read_failure_keeps_loaded_data_witness :
  error (final (run Scenario.unavailable fetchStores Scenario.runs_on_display))
  = Some "Failed to fetch stores"
  /\ stores (final (run Scenario.unavailable fetchStores Scenario.runs_on_display)) = []
  /\ runs (final (run Scenario.unavailable fetchStores Scenario.runs_on_display))
     = Scenario.fetched_runs
  /\ requests (run Scenario.unavailable fetchStores Scenario.runs_on_display)
     = [Select stores_query].
Proof.
  exact (proj1 (read_failure_keeps_loaded_data Scenario.unavailable
                  Scenario.runs_on_display) eq_refl).
Defined.

(** ** Run registration *)

Lemma split_first (sep : ascii) (s : string) :
  at_index (split sep s) 0 = Some (fst (split_pieces sep s)).
Proof. unfold split. now destruct (split_pieces sep s). Qed.

Lemma split_pieces_String (sep c : ascii) (rest : string) :
  fst (split_pieces sep (String c rest))
  = if Ascii.eqb c sep then EmptyString else String c (fst (split_pieces sep rest)).
Proof.
  simpl. destruct (split_pieces sep rest) as [piece pieces].
  now destruct (Ascii.eqb c sep).
Qed.

(** The first piece of a split on the space is the first token of a text
    whose only white space is the space. *)
Lemma first_piece_is_token (s : string) :
  (forall c, In c (list_ascii_of_string s) ->
     Registration.is_whitespace c = true -> c = " "%char) ->
  fst (split_pieces " " s) = Registration.take_token s.
Proof.
  induction s as [|c rest IH]; intro Hws; [reflexivity|].
  rewrite split_pieces_String. cbn [Registration.take_token].
  destruct (Ascii.eqb c " ") eqn:E.
  - apply Ascii.eqb_eq in E. subst c. reflexivity.
  - destruct (Registration.is_whitespace c) eqn:W.
    + rewrite (Hws c (or_introl eq_refl) W) in E. discriminate.
    + f_equal. apply IH. intros c' Hc'. apply Hws. now right.
Qed.

(** The first request of [addRun], for any label. *)
Lemma addRun_sends (srv : service) (st : state) (store : Store.t) (label : string) :
  exists rest,
    requests (run srv (addRun store label) st)
    = Rpc "add_delivery_run"
        [ ("p_run_type", fst (split_pieces " " label));
          ("p_store_id", Store.id store);
          ("p_store_name", Store.store_name store);
          ("p_department_number", Store.department_number store);
          ("p_truck_type", "box_truck") ]
      :: rest.
Proof.
  unfold addRun. rewrite split_first. simpl. eexists. reflexivity.
Qed.

(** C5. For every store and every time slot, [addRun] called with the slot's
    label first sends the request [add_delivery_run] whose run type is the
    first whitespace-delimited token of the label, with the store's id, name
    and department number and the truck type [box_truck]. *)
Theorem addRun_request (srv : service) (st : state) (store : Store.t)
    (slot : RunTime.t) :
  exists rest,
    requests (run srv (addRun store (RunTime.label slot)) st)
    = Rpc "add_delivery_run"
        [ ("p_run_type", Registration.first_token (RunTime.label slot));
          ("p_store_id", Store.id store);
          ("p_store_name", Store.store_name store);
          ("p_department_number", Store.department_number store);
          ("p_truck_type", Registration.truck_type_default) ]
      :: rest.
Proof.
  destruct (addRun_sends srv st store (RunTime.label slot)) as (rest & H).
  exists rest. rewrite H. unfold Registration.first_token.
  rewrite first_piece_is_token.
  - destruct slot; reflexivity.
  - intros c Hc Hw.
    destruct slot; simpl in Hc;
      repeat (destruct Hc as [<-|Hc]; [first [reflexivity | discriminate Hw]|]);
      destruct Hc.
Qed.

(** Registering a run for Cheviot under "Morning Runs" asks for a run of
    type "Morning" on a box truck. *)
Lemma addRun_request_witness :
  exists rest,
    requests (run Scenario.unavailable
                (addRun Scenario.cheviot "Morning Runs") Scenario.runs_on_display)
    = Rpc "add_delivery_run"
        [ ("p_run_type", "Morning");
          ("p_store_id", "store-02");
          ("p_store_name", "Cheviot");
          ("p_department_number", "9012");
          ("p_truck_type", "box_truck") ]
      :: rest.
Proof.
  exact (addRun_request Scenario.unavailable Scenario.runs_on_display
           Scenario.cheviot RunTime.Morning_Runs).
Defined.

(** X1. For any label: the run type sent is the text before the first space,
    which is the label's first whitespace-delimited token when the label
    does not begin with white space and its white space is made of
    spaces. *)
Theorem addRun_run_type_any_label (srv : service) (st : state) (store : Store.t)
    (label : string) :
  Registration.skip_whitespace label = label ->
  (forall c, In c (list_ascii_of_string label) ->
     Registration.is_whitespace c = true -> c = " "%char) ->
  exists rest,
    requests (run srv (addRun store label) st)
    = Rpc "add_delivery_run"
        [ ("p_run_type", Registration.first_token label);
          ("p_store_id", Store.id store);
          ("p_store_name", Store.store_name store);
          ("p_department_number", Store.department_number store);
          ("p_truck_type", Registration.truck_type_default) ]
      :: rest.
Proof.
  intros Hlead Hws.
  destruct (addRun_sends srv st store label) as (rest & H).
  exists rest. rewrite H. unfold Registration.first_token.
  now rewrite Hlead, first_piece_is_token.
Qed.

Lemma addRun_run_type_any_label_witness :
  exists rest,
    requests (run Scenario.unavailable
                (addRun Scenario.cheviot "Evening  Runs") Dashboard.initial)
    = Rpc "add_delivery_run"
        [ ("p_run_type", "Evening");
          ("p_store_id", "store-02");
          ("p_store_name", "Cheviot");
          ("p_department_number", "9012");
          ("p_truck_type", "box_truck") ]
      :: rest.
Proof.
  apply (addRun_run_type_any_label Scenario.unavailable Dashboard.initial
           Scenario.cheviot "Evening  Runs").
  - reflexivity.
  - intros c Hc Hw. simpl in Hc.
    repeat (destruct Hc as [<-|Hc]; [first [reflexivity | discriminate Hw]|]).
    destruct Hc.
Defined.

(** The split is on the space alone and keeps empty pieces: a label that
    begins with a space gives the empty run type, not its first token. *)
Remark leading_space_gives_empty_run_type :
  at_index (split " " " Morning Runs") 0 = Some ""
  /\ Registration.first_token " Morning Runs" = "Morning".
Proof. split; reflexivity. Qed.

(** ** Grouping by time slot *)

Lemma in_group (tag : string) (runs : list DeliveryRun.t) (run : DeliveryRun.t) :
  In run (filter (fun run => DeliveryRun.run_type run =? tag) runs)
  <-> In run runs /\ DeliveryRun.run_type run = tag.
Proof. rewrite filter_In. now rewrite String.eqb_eq. Qed.

Lemma has_group_false (tag : string) :
  Registration.has_group tag = false ->
  tag <> "Morning" /\ tag <> "Afternoon" /\ tag <> "ADC".
Proof.
  unfold Registration.has_group. intro H.
  apply orb_false_iff in H. destruct H as [H HD].
  apply orb_false_iff in H. destruct H as [HM HA].
  now rewrite !String.eqb_neq in *.
Qed.

Lemma groups_partition (runs : list DeliveryRun.t) :
  Permutation runs
    (filter (fun run => DeliveryRun.run_type run =? "Morning") runs
     ++ filter (fun run => DeliveryRun.run_type run =? "Afternoon") runs
     ++ filter (fun run => DeliveryRun.run_type run =? "ADC") runs
     ++ filter (fun run => negb (Registration.has_group (DeliveryRun.run_type run))) runs)%list.
Proof.
  induction runs as [|run runs IH]; [reflexivity|].
  cbn [filter]. unfold Registration.has_group at 1.
  destruct (DeliveryRun.run_type run =? "Morning") eqn:EM.
  { apply String.eqb_eq in EM. rewrite EM. simpl. now apply perm_skip. }
  destruct (DeliveryRun.run_type run =? "Afternoon") eqn:EA.
  { apply String.eqb_eq in EA. rewrite EA. simpl. now apply Permutation_cons_app. }
  destruct (DeliveryRun.run_type run =? "ADC") eqn:ED.
  { cbn [orb negb app]. rewrite app_assoc. apply Permutation_cons_app.
    now rewrite <- app_assoc. }
  cbn [orb negb]. rewrite !app_assoc. apply Permutation_cons_app.
  now rewrite <- !app_assoc.
Qed.

(** C10. Grouping partitions the runs by their exact run-type tag: a run
    tagged "Morning", "Afternoon" or "ADC" is in the group of that name and
    in no other, a run with any other tag is in none of the groups the
    dashboard lists, and the three groups together with the runs left out
    hold every run once. *)
Theorem groupRunsByTime_partitions (runs : list DeliveryRun.t) :
  (forall run, In run runs ->
     (DeliveryRun.run_type run = "Morning" ->
        In run (Morning_Runs (groupRunsByTime runs))
        /\ ~ In run (Afternoon_Runs (groupRunsByTime runs))
        /\ ~ In run (ADC_Runs (groupRunsByTime runs)))
     /\ (DeliveryRun.run_type run = "Afternoon" ->
         ~ In run (Morning_Runs (groupRunsByTime runs))
         /\ In run (Afternoon_Runs (groupRunsByTime runs))
         /\ ~ In run (ADC_Runs (groupRunsByTime runs)))
     /\ (DeliveryRun.run_type run = "ADC" ->
         ~ In run (Morning_Runs (groupRunsByTime runs))
         /\ ~ In run (Afternoon_Runs (groupRunsByTime runs))
         /\ In run (ADC_Runs (groupRunsByTime runs)))
     /\ (Registration.has_group (DeliveryRun.run_type run) = false ->
         forall slot rows,
           In (slot, rows) (entries (groupRunsByTime runs)) -> ~ In run rows))
  /\ Permutation runs
       (Morning_Runs (groupRunsByTime runs)
        ++ Afternoon_Runs (groupRunsByTime runs)
        ++ ADC_Runs (groupRunsByTime runs)
        ++ filter (fun run => negb (Registration.has_group (DeliveryRun.run_type run)))
             runs)%list.
Proof.
  split; [|apply groups_partition].
  intros run Hrun. cbn [groupRunsByTime Morning_Runs Afternoon_Runs ADC_Runs].
  repeat split.
  - now apply in_group.
  - rewrite in_group. intros [_ H']. rewrite H in H'. discriminate.
  - rewrite in_group. intros [_ H']. rewrite H in H'. discriminate.
  - rewrite in_group. intros [_ H']. rewrite H in H'. discriminate.
  - now apply in_group.
  - rewrite in_group. intros [_ H']. rewrite H in H'. discriminate.
  - rewrite in_group. intros [_ H']. rewrite H in H'. discriminate.
  - rewrite in_group. intros [_ H']. rewrite H in H'. discriminate.
  - now apply in_group.
  - intros Hnone slot rows Hentry Hin.
    apply has_group_false in Hnone. destruct Hnone as (HM & HA & HD).
    unfold entries in Hentry. cbn [Morning_Runs Afternoon_Runs ADC_Runs In] in Hentry.
    destruct Hentry as [E|[E|[E|[]]]]; injection E as _ <-;
      apply in_group in Hin; destruct Hin as [_ Htag]; contradiction.
Qed.

(** Of the four fetched runs, tagged "Morning", "morning", " Morning" and
    "ADC", the second and the third are in no group. *)
Lemma groupRunsByTime_partitions_witness :
  entries (groupRunsByTime Scenario.fetched_runs)
  = [ ("Morning Runs", [Scenario.shown_run "run-2" "Morning"]);
      ("Afternoon Runs", []);
      ("ADC Runs", [Scenario.shown_run "run-7" "ADC"]) ]
  /\ forall slot rows,
       In (slot, rows) (entries (groupRunsByTime Scenario.fetched_runs)) ->
       ~ In (Scenario.shown_run "run-5" "morning") rows
       /\ ~ In (Scenario.shown_run "run-6" " Morning") rows.
Proof.
  split; [reflexivity|].
  intros slot rows Hentry.
  destruct (groupRunsByTime_partitions Scenario.fetched_runs) as [Hgroups _].
  split.
  - apply (proj2 (proj2 (proj2 (Hgroups (Scenario.shown_run "run-5" "morning")
                                   (or_intror (or_introl eq_refl)))))
             eq_refl slot rows Hentry).
  - apply (proj2 (proj2 (proj2 (Hgroups (Scenario.shown_run "run-6" " Morning")
                                   (or_intror (or_intror (or_introl eq_refl))))))
             eq_refl slot rows Hentry).
Defined.

(** ** The store read and the declared columns of [stores] *)

(** X3. The table [stores] as its declaration has it names its stores in the
    column [name]: over it, the store read's ordering by [store_name] is
    refused, and no rows come back. *)
Theorem store_read_on_declared_columns (collate : string -> string -> bool)
    (rows : list Stores.row) :
  Rest.data (Rest.answer collate stores_query rows) = None
  /\ Rest.error (Rest.answer collate stores_query rows) <> None.
Proof.
  split; [reflexivity|discriminate].
Qed.

End DashboardFacts.

(* ================================================================== *)
(** * Laws of the aggregator *)
(* ================================================================== *)

Module AggregatorLaws.
Import Sql Spec SqlFacts.

(** ** Counts and deficits *)

Lemma COALESCE_SUM_app (l1 l2 : list (option Z)) :
  COALESCE (SUM (l1 ++ l2)) 0 = (COALESCE (SUM l1) 0 + COALESCE (SUM l2) 0)%Z.
Proof.
  induction l1 as [|v l1 IH]; [reflexivity|].
  change ((v :: l1) ++ l2)%list with (v :: (l1 ++ l2))%list.
  rewrite !COALESCE_SUM_cons, IH. lia.
Qed.

Lemma COALESCE_SUM_perm (l l' : list (option Z)) :
  Permutation l l' -> COALESCE (SUM l) 0 = COALESCE (SUM l') 0.
Proof.
  induction 1 as [|v l l' _ IH|v w l|l l' l'' _ IH1 _ IH2].
  - reflexivity.
  - rewrite !COALESCE_SUM_cons. lia.
  - rewrite !COALESCE_SUM_cons. lia.
  - congruence.
Qed.

Lemma filter_perm {A : Type} (p : A -> bool) (l l' : list A) :
  Permutation l l' -> Permutation (filter p l) (filter p l').
Proof.
  induction 1 as [|x l l' _ IH|x y l|l l' l'' _ IH1 _ IH2]; simpl.
  - constructor.
  - destruct (p x); [now constructor|exact IH].
  - destruct (p x), (p y); try reflexivity. constructor.
  - now transitivity (filter p l').
Qed.

(** A row of the view reads the counts through the coalesced sums of its
    store only. *)
Lemma deficit_row_counts (s : session) (db db' : database)
    (r : active_delivery_run) (par : option store_supply) :
  (forall k, COALESCE (summed_count s db (r_department_number r) k) 0
             = COALESCE (summed_count s db' (r_department_number r) k) 0) ->
  deficit_row s db r par = deficit_row s db' r par.
Proof.
  intro H. unfold deficit_row, deficit.
  now rewrite (H Sleeves), (H Caps), (H Canvases), (H Totes), (H Hardlines),
    (H Softlines).
Qed.

Lemma view_counts_ext (s : session) (db : database)
    (counts counts' : list daily_container_count) :
  (forall d k, COALESCE (summed_count s (with_counts db counts) d k) 0
               = COALESCE (summed_count s (with_counts db counts') d k) 0) ->
  run_supply_needs s (with_counts db counts)
  = run_supply_needs s (with_counts db counts').
Proof.
  intro H. rewrite !run_supply_needs_by_run. simpl.
  apply flat_map_ext. intro r. unfold rows_of_run.
  destruct (created_today s (r_created_at r)); [|reflexivity].
  change (par_rows_of (with_counts db counts') r)
    with (par_rows_of (with_counts db counts) r).
  apply map_ext. intro par. apply deficit_row_counts. intro k. apply H.
Qed.

(** X5. The deficits do not depend on the order of the count facts: over
    any rearrangement of [daily_container_counts] the view has the same
    rows. *)
Theorem counts_order_is_irrelevant (s : session) (db : database)
    (counts counts' : list daily_container_count) :
  Permutation counts counts' ->
  run_supply_needs s (with_counts db counts)
  = run_supply_needs s (with_counts db counts').
Proof.
  intro Hperm. apply view_counts_ext. intros d k.
  unfold summed_count, todays_counts_of. simpl.
  apply COALESCE_SUM_perm, Permutation_map, filter_perm, Hperm.
Qed.

Lemma counts_order_is_irrelevant_witness :
  run_supply_needs Scenario.clock
    (with_counts Scenario.desk (Scenario.counts_before ++ Scenario.counts_after))
  = run_supply_needs Scenario.clock
      (with_counts Scenario.desk (Scenario.counts_after ++ Scenario.counts_before)).
Proof.
  apply (counts_order_is_irrelevant Scenario.clock Scenario.desk).
  apply Permutation_app_comm.
Defined.

(** X6. A count fact without department number changes no row of the view,
    today's or not: it is summed into the NULL group of [store_totals],
    which no run is joined with. *)
Theorem count_without_department_is_ignored (s : session) (db : database)
    (c : daily_container_count) (before after : list daily_container_count) :
  dcc_department_number c = None ->
  run_supply_needs s (with_counts db (before ++ c :: after))
  = run_supply_needs s (with_counts db (before ++ after)).
Proof.
  intro Hnull. apply view_counts_ext. intros d k.
  unfold summed_count, todays_counts_of. simpl.
  assert (E : is_true (sql_eq String.eqb d (dcc_department_number c)) = false)
    by (rewrite Hnull; now destruct d).
  rewrite !filter_app. cbn [filter]. now rewrite E, andb_false_r.
Qed.

Lemma count_without_department_is_ignored_witness :
  run_supply_needs Scenario.clock
    (with_counts Scenario.desk
       (Scenario.counts_before ++ Scenario.anonymous_count :: Scenario.counts_after))
  = run_supply_needs Scenario.clock
      (with_counts Scenario.desk (Scenario.counts_before ++ Scenario.counts_after)).
Proof.
  apply (count_without_department_is_ignored Scenario.clock Scenario.desk
           Scenario.anonymous_count Scenario.counts_before Scenario.counts_after).
  reflexivity.
Defined.

Lemma Forall2_flat_map_same {A B C : Type} (R : B -> C -> Prop)
    (f : A -> list B) (g : A -> list C) (l : list A) :
  (forall x, Forall2 R (f x) (g x)) -> Forall2 R (flat_map f l) (flat_map g l).
Proof.
  intro H. induction l as [|x l IH]; simpl; [constructor|].
  now apply Forall2_app.
Qed.

Lemma Forall2_map_same {A B C : Type} (R : B -> C -> Prop)
    (f : A -> B) (g : A -> C) (l : list A) :
  (forall x, R (f x) (g x)) -> Forall2 R (map f l) (map g l).
Proof.
  intro H. induction l as [|x l IH]; simpl; constructor; auto.
Qed.

(** In the evaluation order of the model, row by row. *)
Lemma count_credited_row_by_row (s : session) (db : database)
    (c : daily_container_count) (before after : list daily_container_count) :
  created_today s (dcc_created_at c) = true ->
  Forall2
    (fun row' row =>
       run_columns row' = run_columns row
       /\ forall k : supply,
            needed k row'
            = (needed k row
               - if is_true (sql_eq String.eqb (department_number row)
                               (dcc_department_number c))
                 then COALESCE (count_of k c) 0
                 else 0)%Z)
    (run_supply_needs s (with_counts db (before ++ c :: after)))
    (run_supply_needs s (with_counts db (before ++ after))).
Proof.
  intro Htoday. rewrite !run_supply_needs_by_run. simpl.
  apply Forall2_flat_map_same. intro r. unfold rows_of_run.
  destruct (created_today s (r_created_at r)); [|constructor].
  change (par_rows_of (with_counts db (before ++ c :: after)) r)
    with (par_rows_of (with_counts db (before ++ after)) r).
  apply Forall2_map_same. intro par. split.
  - now rewrite !Aggregator.run_columns_deficit_row.
  - intro k. rewrite !Aggregator.needed_deficit_row.
    unfold deficit, summed_count, todays_counts_of. simpl.
    rewrite !filter_app. cbn [filter]. rewrite Htoday. cbn [andb].
    destruct (is_true (sql_eq String.eqb (r_department_number r)
                         (dcc_department_number c))).
    + rewrite !map_app. cbn [map].
      rewrite !COALESCE_SUM_app, COALESCE_SUM_cons. lia.
    + lia.
Qed.

Lemma needs_row_ext (a b : needs_row) :
  run_columns a = run_columns b -> (forall k, needed k a = needed k b) -> a = b.
Proof.
  intros Hcols Hneeded. destruct a, b. simpl in Hcols.
  injection Hcols as -> -> -> -> -> -> -> -> -> -> -> -> ->.
  pose proof (Hneeded Sleeves) as H1. pose proof (Hneeded Caps) as H2.
  pose proof (Hneeded Canvases) as H3. pose proof (Hneeded Totes) as H4.
  pose proof (Hneeded Hardlines) as H5. pose proof (Hneeded Softlines) as H6.
  simpl in *. now subst.
Qed.

Lemma credited_row (c : daily_container_count) (row' row : needs_row) :
  run_columns row' = run_columns row ->
  (forall k : supply,
     needed k row'
     = (needed k row
        - if is_true (sql_eq String.eqb (department_number row)
                        (dcc_department_number c))
          then COALESCE (count_of k c) 0
          else 0)%Z) ->
  row' = credited c row.
Proof.
  intros Hcols Hneeded. apply needs_row_ext.
  - rewrite Hcols. unfold credited.
    destruct (is_true _); [destruct row|]; reflexivity.
  - intro k. rewrite Hneeded. unfold credited.
    destruct (is_true _); [destruct k; reflexivity|lia].
Qed.

(** X7. A count fact dated today lowers, in the rows of its department,
    each deficit by the quantity counted (a NULL quantity by 0) and changes
    nothing else: as a bag, the view with the count is the view without it
    with every row of that department credited. *)
Theorem count_lowers_deficits (s : session) (db : database)
    (c : daily_container_count) (before after : list daily_container_count) :
  created_today s (dcc_created_at c) = true ->
  Permutation
    (run_supply_needs s (with_counts db (before ++ c :: after)))
    (map (credited c) (run_supply_needs s (with_counts db (before ++ after)))).
Proof.
  intro Htoday.
  pose proof (count_credited_row_by_row s db c before after Htoday) as H.
  induction H as [|row' row rows' rows [Hcols Hneeded] _ IH]; [constructor|].
  cbn [map]. rewrite (credited_row c row' row Hcols Hneeded).
  now apply perm_skip.
Qed.

(** Five more sleeves counted at Tri-County take its run from 30 to 25 and
    leave Cheviot's at -40. *)
Lemma count_lowers_deficits_witness :
  Permutation
    (run_supply_needs Scenario.clock
       (with_counts Scenario.desk
          (Scenario.counts_before
           ++ Scenario.sleeves_counted "9011" 5 (Scenario.at_day 20100 1200)
              :: tl Scenario.counts_after)))
    (map (credited (Scenario.sleeves_counted "9011" 5 (Scenario.at_day 20100 1200)))
       (run_supply_needs Scenario.clock
          (with_counts Scenario.desk
             (Scenario.counts_before ++ tl Scenario.counts_after))))
  /\ map (fun row => (run_id row, sleeves_needed row))
       (run_supply_needs Scenario.clock
          (with_counts Scenario.desk (Scenario.counts_before ++ tl Scenario.counts_after)))
     = [("run-1", 30); ("run-2", -40); ("run-4", -3)]%Z
  /\ map (fun row => (run_id row, sleeves_needed row))
       (map (credited (Scenario.sleeves_counted "9011" 5 (Scenario.at_day 20100 1200)))
          (run_supply_needs Scenario.clock
             (with_counts Scenario.desk
                (Scenario.counts_before ++ tl Scenario.counts_after))))
     = [("run-1", 25); ("run-2", -40); ("run-4", -3)]%Z.
Proof.
  split; [|split; reflexivity].
  apply (count_lowers_deficits Scenario.clock Scenario.desk
           (Scenario.sleeves_counted "9011" 5 (Scenario.at_day 20100 1200))
           Scenario.counts_before (tl Scenario.counts_after)).
  reflexivity.
Defined.

(** ** Rows per run *)

Lemma map_constant {A B : Type} (b : B) (l : list A) :
  map (fun _ => b) l = repeat b (List.length l).
Proof.
  induction l as [|a l IH]; simpl; [reflexivity|]. now rewrite IH.
Qed.

(** In the evaluation order of the model. *)
Lemma rows_per_run_in_order (s : session) (db : database) :
  map run_columns (run_supply_needs s db)
  = flat_map
      (fun r =>
         if created_today s (r_created_at r)
         then repeat r
                (Nat.max 1
                   (List.length
                      (filter
                         (fun p =>
                            is_true (sql_eq String.eqb (r_department_number r)
                                       (ss_department_number p)))
                         (store_supplies db))))
         else [])
      (active_delivery_runs db).
Proof.
  rewrite run_supply_needs_by_run.
  induction (active_delivery_runs db) as [|r rs IH]; [reflexivity|].
  cbn [flat_map]. rewrite map_app, IH. f_equal.
  unfold rows_of_run. destruct (created_today s (r_created_at r)); [|reflexivity].
  rewrite map_map.
  rewrite (map_ext _ (fun _ => r))
    by (intro par; apply Aggregator.run_columns_deficit_row).
  unfold par_rows_of, on_store_supplies. cbn [fst].
  destruct (filter _ (store_supplies db)) as [|p ps]; [reflexivity|].
  rewrite map_map, map_constant. reflexivity.
Qed.

(** X8. As a bag, the view holds a run created today once per par-level row
    of its store, and once when the store has none; a run not created today
    it does not hold. *)
Theorem rows_per_run (s : session) (db : database) :
  Permutation
    (map run_columns (run_supply_needs s db))
    (flat_map
       (fun r =>
          if created_today s (r_created_at r)
          then repeat r
                 (Nat.max 1
                    (List.length
                       (filter
                          (fun p =>
                             is_true (sql_eq String.eqb (r_department_number r)
                                        (ss_department_number p)))
                          (store_supplies db))))
          else [])
       (active_delivery_runs db)).
Proof.
  rewrite rows_per_run_in_order. reflexivity.
Qed.

(** X9. A run without department number is joined with no totals and no
    par levels: all six of its deficits are 0, whatever was counted and
    whatever the par levels are. *)
Theorem run_without_department_shows_zero (s : session) (db : database)
    (row : needs_row) :
  In row (run_supply_needs s db) ->
  department_number row = None ->
  forall k : supply, needed k row = 0%Z.
Proof.
  intros Hrow Hnull k. apply Aggregator.row_origin in Hrow.
  destruct Hrow as (r & par & _ & _ & Hpar & ->). simpl in Hnull.
  rewrite Aggregator.needed_deficit_row. unfold deficit, summed_count.
  rewrite Hnull, todays_counts_of_NULL.
  rewrite Aggregator.par_rows_of_unmatched in Hpar
    by (intros p _; rewrite Hnull; reflexivity).
  destruct Hpar as [<-|[]]. reflexivity.
Qed.

(** The unassigned run shows 0 six times, though 7 sleeves were counted
    without department today. *)
Lemma run_without_department_shows_zero_witness :
  map (fun k => needed k
                  (deficit_row Scenario.clock Scenario.desk_with_unassigned
                     Scenario.unassigned_run None))
    all_supplies
  = [0; 0; 0; 0; 0; 0]%Z.
Proof.
  assert (H : forall k : supply,
             needed k
               (deficit_row Scenario.clock Scenario.desk_with_unassigned
                  Scenario.unassigned_run None) = 0%Z).
  { apply (run_without_department_shows_zero Scenario.clock
             Scenario.desk_with_unassigned).
    - vm_compute. left. reflexivity.
    - reflexivity. }
  cbn [map all_supplies].
  now rewrite (H Sleeves), (H Caps), (H Canvases), (H Totes), (H Hardlines),
    (H Softlines).
Defined.

End AggregatorLaws.

(* ================================================================== *)
(** * Laws of the dashboard *)
(* ================================================================== *)

Module DashboardLaws.
Import Dashboard.

(** ** Registering a run *)

Lemma run_addRun (srv : service) (st : state) (store : Store.t) (timeSlot : string) :
  run srv (addRun store timeSlot) st
  = match srv _ (registration store timeSlot) with
    | Resolved {| Rest.data := _; Rest.error := None |} =>
        {| result := Normal tt;
           final := final (run srv fetchRuns (setShowStoreDropdown None st));
           requests :=
             sent (registration store timeSlot)
             :: requests (run srv fetchRuns (setShowStoreDropdown None st)) |}
    | _ =>
        {| result := Normal tt;
           final := setError (Some "Failed to add run") st;
           requests := [sent (registration store timeSlot)] |}
    end.
Proof.
  unfold addRun, registration, try_catch, seq, await. simpl.
  destruct (srv _ (rpc _ _)) as [[d [e|]]|]; try reflexivity.
  simpl.
  destruct (srv _ (select_runs runs_query)) as [[d' [e'|]]|]; reflexivity.
Qed.

(** X10. When the registration is accepted, [addRun] closes the store list,
    then reads the runs once: two requests in all.  The spinner is off
    afterwards, the stores and the selected type are as before, and the run
    list is what the read returned; when that read fails the run list is
    kept and the error shown is the read's, not the registration's. *)
Theorem addRun_accepted (srv : service) (st : state) (store : Store.t)
    (timeSlot : string) :
  failed (srv _ (registration store timeSlot)) = false ->
  requests (run srv (addRun store timeSlot) st)
  = [sent (registration store timeSlot); Select runs_query]
  /\ showStoreDropdown (final (run srv (addRun store timeSlot) st)) = None
  /\ loading (final (run srv (addRun store timeSlot) st)) = false
  /\ stores (final (run srv (addRun store timeSlot) st)) = stores st
  /\ selectedType (final (run srv (addRun store timeSlot) st)) = selectedType st
  /\ match srv _ (select_runs runs_query) with
     | Resolved {| Rest.data := d; Rest.error := None |} =>
         runs (final (run srv (addRun store timeSlot) st)) = or_empty d
         /\ error (final (run srv (addRun store timeSlot) st)) = error st
     | _ =>
         runs (final (run srv (addRun store timeSlot) st)) = runs st
         /\ error (final (run srv (addRun store timeSlot) st))
            = Some "Failed to fetch delivery runs"
     end.
Proof.
  intro Hok. rewrite run_addRun.
  destruct (srv _ (registration store timeSlot)) as [[d [e|]]|];
    try discriminate Hok.
  rewrite DashboardFacts.run_fetchRuns. simpl.
  destruct (srv _ (select_runs runs_query)) as [[d' [e'|]]|]; repeat split.
Qed.

(** Registering Cheviot's morning run with the service up: the store list
    closes and the four runs of the service are listed. *)
Lemma addRun_accepted_witness :
  requests (run Scenario.available (addRun Scenario.cheviot "Morning Runs")
              (toggleStoreDropdown "Morning Runs" Scenario.runs_on_display))
  = [sent (registration Scenario.cheviot "Morning Runs"); Select runs_query]
  /\ showStoreDropdown
       (final (run Scenario.available (addRun Scenario.cheviot "Morning Runs")
                 (toggleStoreDropdown "Morning Runs" Scenario.runs_on_display)))
     = None
  /\ runs (final (run Scenario.available (addRun Scenario.cheviot "Morning Runs")
                    (toggleStoreDropdown "Morning Runs" Scenario.runs_on_display)))
     = Scenario.fetched_runs.
Proof.
  destruct (addRun_accepted Scenario.available
              (toggleStoreDropdown "Morning Runs" Scenario.runs_on_display)
              Scenario.cheviot "Morning Runs" eq_refl)
    as (Hreq & Hdrop & _ & _ & _ & Hruns & _).
  repeat split; assumption.
Defined.

(** X11. When the registration fails (rejected, or resolved with an error)
    [addRun] only sets the error to "Failed to add run": one request, no
    read of the runs, and the store list of the slot stays open. *)
Theorem addRun_refused (srv : service) (st : state) (store : Store.t)
    (timeSlot : string) :
  failed (srv _ (registration store timeSlot)) = true ->
  requests (run srv (addRun store timeSlot) st) = [sent (registration store timeSlot)]
  /\ final (run srv (addRun store timeSlot) st) = setError (Some "Failed to add run") st
  /\ showStoreDropdown (final (run srv (addRun store timeSlot) st))
     = showStoreDropdown st.
Proof.
  intro Hfailed. rewrite run_addRun.
  destruct (srv _ (registration store timeSlot)) as [[d [e|]]|];
    try discriminate Hfailed; repeat split.
Qed.

Lemma addRun_refused_witness :
  requests (run Scenario.unavailable (addRun Scenario.cheviot "Morning Runs")
              (toggleStoreDropdown "Morning Runs" Scenario.runs_on_display))
  = [sent (registration Scenario.cheviot "Morning Runs")]
  /\ final (run Scenario.unavailable (addRun Scenario.cheviot "Morning Runs")
              (toggleStoreDropdown "Morning Runs" Scenario.runs_on_display))
     = setError (Some "Failed to add run")
         (toggleStoreDropdown "Morning Runs" Scenario.runs_on_display)
  /\ showStoreDropdown
       (final (run Scenario.unavailable (addRun Scenario.cheviot "Morning Runs")
                 (toggleStoreDropdown "Morning Runs" Scenario.runs_on_display)))
     = Some "Morning Runs".
Proof.
  exact (addRun_refused Scenario.unavailable
           (toggleStoreDropdown "Morning Runs" Scenario.runs_on_display)
           Scenario.cheviot "Morning Runs" eq_refl).
Defined.

(** ** The run type of any label *)

Lemma first_piece_prefix (sep : ascii) (s : string) :
  exists rest,
    s = fst (split_pieces sep s) ++ rest
    /\ (rest = "" \/ exists r, rest = String sep r)
    /\ forall c, In c (list_ascii_of_string (fst (split_pieces sep s))) -> c <> sep.
Proof.
  induction s as [|c s IH].
  - exists "". simpl. split; [reflexivity|]. split; [now left|]. intros c [].
  - rewrite DashboardFacts.split_pieces_String.
    destruct (Ascii.eqb c sep) eqn:E.
    + apply Ascii.eqb_eq in E. subst c. exists (String sep s). simpl.
      split; [reflexivity|]. split; [right; now exists s|]. intros c [].
    + destruct IH as (rest & Hs & Hrest & Hchars).
      exists rest. split; [simpl; now rewrite <- Hs|]. split; [exact Hrest|].
      intros c' [<-|Hc']; [|now apply Hchars].
      now apply Ascii.eqb_neq.
Qed.

(** X12. For every label, [addRun] sends a run type, and it is the part of
    the label before its first space: a prefix of the label without any
    space, followed in the label by a space or by nothing. *)
Theorem addRun_run_type_is_prefix (srv : service) (st : state) (store : Store.t)
    (label : string) :
  exists (runType rest : string) (others : list request),
    requests (run srv (addRun store label) st)
    = Rpc "add_delivery_run"
        [ ("p_run_type", runType);
          ("p_store_id", Store.id store);
          ("p_store_name", Store.store_name store);
          ("p_department_number", Store.department_number store);
          ("p_truck_type", "box_truck") ]
      :: others
    /\ label = runType ++ rest
    /\ (forall c, In c (list_ascii_of_string runType) -> c <> " "%char)
    /\ (rest = "" \/ exists r, rest = String " " r).
Proof.
  destruct (DashboardFacts.addRun_sends srv st store label) as (others & Hreq).
  destruct (first_piece_prefix " " label) as (rest & Hlabel & Hrest & Hchars).
  exists (fst (split_pieces " " label)), rest, others. repeat split; assumption.
Qed.

(** ** What the tables show *)




(** X14. The status colour tells the statuses apart, but for [pending] and
    [loading], which share the grey of the default case. *)
Theorem status_colours (a b : Status.t) :
  getStatusColor a = getStatusColor b
  <-> a = b
      \/ ((a = Status.pending \/ a = Status.loading)
          /\ (b = Status.pending \/ b = Status.loading)).
Proof.
  destruct a, b; simpl; split; intro H;
    try discriminate H; auto 6;
    destruct H as [H|[[H|H] [H'|H']]]; discriminate.
Qed.

(** ** Handlers, setters and requests *)

Lemma every_setter_bind {A B : Type} (ok : (state -> state) -> Prop)
    (m : async A) (f : A -> async B) :
  every_setter ok m -> (forall a, every_setter ok (f a)) ->
  every_setter ok (bind m f).
Proof.
  intros Hm Hf. induction m as [a|u k IH|X c k IH]; simpl in *.
  - apply Hf.
  - split; [tauto|]. apply IH. tauto.
  - intro x. apply IH, Hm.
Qed.

Lemma every_request_bind {A B : Type} (ok : request -> Prop)
    (m : async A) (f : A -> async B) :
  every_request ok m -> (forall a, every_request ok (f a)) ->
  every_request ok (bind m f).
Proof.
  intros Hm Hf. induction m as [a|u k IH|X c k IH]; simpl in *.
  - apply Hf.
  - apply IH, Hm.
  - split; [tauto|]. intro x. apply IH, Hm.
Qed.

#[local] Ltac one_of_the_messages :=
  constructor; simpl; tauto.

Lemma fetchStores_setters : every_setter written_setter fetchStores.
Proof.
  unfold fetchStores, try_catch, seq, await. simpl.
  intros [[d [e|]]|]; simpl; repeat split;
    first [apply written_setStores | one_of_the_messages].
Qed.

Lemma fetchRuns_setters : every_setter written_setter fetchRuns.
Proof.
  unfold fetchRuns, try_finally, try_catch, seq, await. simpl.
  intros [[d [e|]]|]; simpl; repeat split;
    first [apply written_setRuns | apply written_setLoading | one_of_the_messages].
Qed.

Lemma addRun_setters (store : Store.t) (timeSlot : string) :
  every_setter written_setter (addRun store timeSlot).
Proof.
  unfold addRun, try_catch, seq, await. simpl.
  intros [[d [e|]]|]; simpl; repeat split; try one_of_the_messages.
  intros [[d' [e'|]]|]; simpl; repeat split;
    first [apply written_setRuns | apply written_setLoading | one_of_the_messages].
Qed.

Lemma handler_setters (m : js unit) :
  handler m -> every_setter written_setter m.
Proof.
  destruct 1.
  - apply fetchRuns_setters.
  - apply fetchStores_setters.
  - apply addRun_setters.
  - simpl. split; [constructor|exact I].
  - simpl. split; [constructor|exact I].
Qed.


(** ** Invariants of the event loop *)

Lemma play_app (es es' : list event) (l : loop) :
  play (es ++ es') l = play es' (play es l).
Proof. unfold play. apply fold_left_app. Qed.

Lemma take_task_Forall (P : task -> Prop) (i : nat) (tasks others : list task)
    (t : task) :
  take_task i tasks = Some (t, others) -> Forall P tasks -> P t /\ Forall P others.
Proof.
  revert i others. induction tasks as [|t' tasks IH]; intros i others H Hall.
  - destruct i; discriminate.
  - inversion Hall as [|? ? Ht' Htasks]; subst.
    destruct i as [|j]; simpl in H.
    + injection H as <- <-. now split.
    + destruct (take_task j tasks) as [[found rest]|] eqn:E; [|discriminate].
      injection H as <- <-.
      destruct (IH j rest E Htasks) as [Hfound Hrest]. split; [exact Hfound|].
      now constructor.
Qed.

Section Invariant.

(** [inv] is a property of the state that every written setter keeps. *)
Variable inv : state -> Prop.
Hypothesis inv_kept : forall u st, written_setter u -> inv st -> inv (u st).

Lemma advance_keeps (m : js unit) (l : loop) :
  every_setter written_setter m -> pending_written l -> inv (current l) ->
  pending_written (advance m l) /\ inv (current (advance m l)).
Proof.
  revert l. induction m as [a|u k IH|X c k IH]; intros l Hm Hpool Hinv; simpl in *.
  - now split.
  - apply IH; [tauto|exact Hpool|]. simpl. apply inv_kept; tauto.
  - split; [|exact Hinv]. unfold pending_written. simpl.
    apply Forall_app. split; [exact Hpool|]. constructor; [exact Hm|constructor].
Qed.

Lemma react_keeps (e : event) (l : loop) :
  occurs e -> pending_written l -> inv (current l) ->
  pending_written (react l e) /\ inv (current (react l e)).
Proof.
  intros He Hpool Hinv. destruct He as [m Hm|srv i]; simpl.
  - apply advance_keeps; [now apply handler_setters|exact Hpool|exact Hinv].
  - destruct (take_task i (pool l)) as [[t others]|] eqn:E; [|now split].
    destruct (take_task_Forall _ _ _ _ _ E Hpool) as [Ht Hothers].
    apply advance_keeps; [apply Ht|exact Hothers|exact Hinv].
Qed.

Lemma play_keeps (es : list event) (l : loop) :
  Forall occurs es -> pending_written l -> inv (current l) ->
  pending_written (play es l) /\ inv (current (play es l)).
Proof.
  revert l. induction es as [|e es IH]; intros l Hes Hpool Hinv; [now split|].
  inversion Hes as [|? ? He Hrest]; subst.
  destruct (react_keeps e l He Hpool Hinv) as [Hpool' Hinv'].
  now apply IH.
Qed.

End Invariant.

Lemma play_pending_written (es : list event) (st : state) :
  Forall occurs es -> pending_written (play es (idle st)).
Proof.
  intro Hes.
  apply (play_keeps (fun _ => True) (fun _ _ _ _ => I) es (idle st) Hes);
    [constructor|exact I].
Qed.

(** X15. The error banner is never taken down: once an error is set, no
    sequence of handlers and settlements, in any interleaving, brings
    [error] back to null; a later successful read does not clear it.  And
    an error that was set since the start is one of the three fixed
    messages of the component. *)
Theorem error_is_never_cleared (st : state) (es es' : list event) :
  Forall occurs es -> Forall occurs es' ->
  (error (current (play es (idle st))) <> None ->
   error (current (play (es ++ es') (idle st))) <> None)
  /\ (error (current (play es (idle st))) = error st
      \/ In (error (current (play es (idle st))))
           [ Some "Failed to fetch stores";
             Some "Failed to fetch delivery runs";
             Some "Failed to add run" ]).
Proof.
  intros Hes Hes'. split.
  - intro Herr. rewrite play_app.
    apply (play_keeps (fun s => error s <> None)); try assumption.
    + intros u s Hu Hs. destruct Hu; simpl; try exact Hs. discriminate.
    + now apply play_pending_written.
  - apply (play_keeps
             (fun s =>
                error s = error st
                \/ In (error s)
                     [ Some "Failed to fetch stores";
                       Some "Failed to fetch delivery runs";
                       Some "Failed to add run" ])); try assumption.
    + intros u s Hu Hs. destruct Hu as [| | |message Hmessage| | |];
        simpl; try exact Hs.
      right. simpl in Hmessage. destruct Hmessage as [<-|[<-|[<-|[]]]]; simpl; auto.
    + constructor.
    + now left.
Qed.

(** The run read fails at mount; the store read succeeds, a change is
    notified and the new run read succeeds: the error of the first read is
    still shown. *)
Lemma error_is_never_cleared_witness :
  error (current
           (play ((mount ++ [Settle Scenario.unavailable 0])
                  ++ [Settle Scenario.available 0; Start fetchRuns;
                      Settle Scenario.available 0])
              (idle initial)))
  = Some "Failed to fetch delivery runs"
  /\ error (current
              (play ((mount ++ [Settle Scenario.unavailable 0])
                     ++ [Settle Scenario.available 0; Start fetchRuns;
                         Settle Scenario.available 0])
                 (idle initial)))
     <> None.
Proof.
  split; [reflexivity|].
  apply (proj1 (error_is_never_cleared initial
                  (mount ++ [Settle Scenario.unavailable 0])
                  [Settle Scenario.available 0; Start fetchRuns;
                   Settle Scenario.available 0]
                  ltac:(repeat constructor) ltac:(repeat constructor))).
  discriminate.
Defined.

(** X16. The spinner never comes back: once [loading] is off, no sequence
    of handlers and settlements turns it on again, so a later read of the
    runs happens behind the tables on display. *)
Theorem spinner_never_returns (st : state) (es es' : list event) :
  Forall occurs es -> Forall occurs es' ->
  loading (current (play es (idle st))) = false ->
  loading (current (play (es ++ es') (idle st))) = false
  /\ render (current (play (es ++ es') (idle st))) <> Spinner.
Proof.
  intros Hes Hes' Hoff.
  assert (H : loading (current (play (es ++ es') (idle st))) = false).
  { rewrite play_app.
    apply (play_keeps (fun s => loading s = false)); try assumption.
    - intros u s Hu Hs. destruct Hu; simpl; auto.
    - now apply play_pending_written. }
  split; [exact H|]. unfold render. rewrite H. discriminate.
Qed.

Lemma spinner_never_returns_witness :
  loading (current
             (play ((mount ++ [Settle Scenario.available 0])
                    ++ [Start (addRun Scenario.cheviot "ADC Runs");
                        Settle Scenario.available 1])
                (idle initial)))
  = false
  /\ render (current
               (play ((mount ++ [Settle Scenario.available 0])
                      ++ [Start (addRun Scenario.cheviot "ADC Runs");
                          Settle Scenario.available 1])
                  (idle initial)))
     <> Spinner.
Proof.
  apply (spinner_never_returns initial
           (mount ++ [Settle Scenario.available 0])
           [Start (addRun Scenario.cheviot "ADC Runs"); Settle Scenario.available 1]).
  - repeat constructor.
  - repeat constructor.
  - reflexivity.
Defined.

(** ** Mounting *)

(** X17. At mount the run read is sent first and the store read second, and
    neither waits for the other.  Whichever settles first, nothing is left
    pending and the spinner is off; the two orders end in the same state
    unless both reads fail, and then the banner shows the message of the
    read that settled last.  Until the run read settles the
    spinner stays, even when the stores have arrived. *)
Theorem mount_reads_in_either_order (st : state) (srvR srvS : service) :
  sent_so_far (play mount (idle st)) = [Select runs_query; Select stores_query]
  /\ current (play mount (idle st)) = st
  /\ loading (current (play (mount ++ [Settle srvS 1]) (idle st))) = loading st
  /\ pool (play (mount ++ [Settle srvR 0; Settle srvS 0]) (idle st)) = []
  /\ pool (play (mount ++ [Settle srvS 1; Settle srvR 0]) (idle st)) = []
  /\ loading (current (play (mount ++ [Settle srvR 0; Settle srvS 0]) (idle st))) = false
  /\ (failed (srvR _ (select_runs runs_query)) = false
      \/ failed (srvS _ (select_stores stores_query)) = false ->
      current (play (mount ++ [Settle srvR 0; Settle srvS 0]) (idle st))
      = current (play (mount ++ [Settle srvS 1; Settle srvR 0]) (idle st)))
  /\ (failed (srvR _ (select_runs runs_query)) = true ->
      failed (srvS _ (select_stores stores_query)) = true ->
      error (current (play (mount ++ [Settle srvR 0; Settle srvS 0]) (idle st)))
      = Some "Failed to fetch stores"
      /\ error (current (play (mount ++ [Settle srvS 1; Settle srvR 0]) (idle st)))
         = Some "Failed to fetch delivery runs").
Proof.
  unfold play, mount, fetchRuns, fetchStores, try_finally, try_catch, seq, await.
  simpl.
  destruct (srvR _ (select_runs runs_query)) as [[dr [er|]]|] eqn:ER;
    destruct (srvS _ (select_stores stores_query)) as [[ds [es|]]|] eqn:ES;
    simpl; rewrite ?ER, ?ES; simpl; rewrite ?ER, ?ES; simpl;
    repeat split; intros; try reflexivity; try congruence;
    match goal with H : _ \/ _ |- _ => destruct H; congruence end.
Qed.

(** From the initial state: with the stores arrived and the runs pending
    the dashboard still shows the spinner. *)
Lemma mount_reads_in_either_order_witness :
  sent_so_far (play mount (idle initial)) = [Select runs_query; Select stores_query]
  /\ render (current (play (mount ++ [Settle Scenario.available 1]) (idle initial)))
     = Spinner
  /\ current (play (mount ++ [Settle Scenario.available 0; Settle Scenario.available 0])
                (idle initial))
     = current (play (mount ++ [Settle Scenario.available 1; Settle Scenario.available 0])
                  (idle initial)).
Proof.
  destruct (mount_reads_in_either_order initial Scenario.available Scenario.available)
    as (Hsent & _ & _ & _ & _ & _ & Hsame & _).
  split; [exact Hsent|]. split; [reflexivity|].
  apply Hsame. left. reflexivity.
Defined.

(** ** One handler at a time *)

Lemma drain_advance (srv : service) (m : js unit) (st : state) (log : list request) :
  play (drain srv (awaits srv m))
    (advance m {| current := st; pool := []; sent_so_far := log |})
  = {| current := final (run srv m st);
       pool := [];
       sent_so_far := log ++ requests (run srv m st) |}.
Proof.
  revert st log. induction m as [a|u k IH|X c k IH]; intros st log.
  - simpl. now rewrite app_nil_r.
  - simpl. apply IH.
  - change (play (drain srv (awaits srv (Await c k)))
              (advance (Await c k) {| current := st; pool := []; sent_so_far := log |}))
      with (play (drain srv (awaits srv (k (srv _ c))))
              (advance (k (srv _ c))
                 {| current := st; pool := []; sent_so_far := log ++ [sent c] |})).
    rewrite IH. simpl. now rewrite <- app_assoc.
Qed.

(** The two interpreters agree: a computation started on an idle loop, each
    of its promises settled before anything else happens, ends as [run]
    says. *)
Lemma alone_is_sequential (srv : service) (m : js unit) (st : state) :
  play (Start m :: drain srv (awaits srv m)) (idle st)
  = {| current := final (run srv m st);
       pool := [];
       sent_so_far := requests (run srv m st) |}.
Proof.
  unfold play. simpl. apply (drain_advance srv m st []).
Qed.

(** ** Requests *)








(** ** Change notifications *)

(** X20. Only a change of [public.active_delivery_runs] makes the dashboard
    read again, whatever its kind (insert, update, delete), and what it
    reads again is the run list alone: one run read is sent.  A change of
    any other table, the count facts and the par levels included, starts
    nothing. *)
Theorem only_run_changes_refresh (c : change) (l : loop) :
  (change_schema c = "public" /\ change_table c = "active_delivery_runs" ->
   sent_so_far (play (notified c) l) = (sent_so_far l ++ [Select runs_query])%list
   /\ current (play (notified c) l) = current l
   /\ List.length (pool (play (notified c) l)) = S (List.length (pool l)))
  /\ (change_schema c <> "public" \/ change_table c <> "active_delivery_runs" ->
      play (notified c) l = l).
Proof.
  assert (E : concerns dispatch_changes c
              = (change_schema c =? "public")
                && (change_table c =? "active_delivery_runs")).
  { unfold concerns, dispatch_changes. cbn [event_kind schema table].
    rewrite (String.eqb_sym "public"), (String.eqb_sym "active_delivery_runs").
    reflexivity. }
  unfold notified. rewrite E. split.
  - intros [-> ->]. rewrite !String.eqb_refl. simpl. repeat split.
    rewrite length_app. simpl. lia.
  - intros [H|H]; apply String.eqb_neq in H; rewrite H;
      [reflexivity|]. now rewrite andb_false_r.
Qed.

Lemma only_run_changes_refresh_witness :
  play (notified {| change_kind := "INSERT"; change_schema := "public";
                    change_table := "daily_container_counts" |})
    (idle Scenario.runs_on_display)
  = idle Scenario.runs_on_display
  /\ sent_so_far
       (play (notified {| change_kind := "DELETE"; change_schema := "public";
                          change_table := "active_delivery_runs" |})
          (idle Scenario.runs_on_display))
     = [Select runs_query].
Proof.
  split.
  - apply (proj2 (only_run_changes_refresh
                    {| change_kind := "INSERT"; change_schema := "public";
                       change_table := "daily_container_counts" |}
                    (idle Scenario.runs_on_display))).
    right. discriminate.
  - reflexivity.
Defined.

End DashboardLaws.

(* ================================================================== *)
(** * The initial data of [stores] *)
(* ================================================================== *)

Module StoresLaws.
Import Stores.

Lemma distinct_app_shared (k : string) (l l' : list string) :
  In k l -> In k l' -> distinct (l ++ l')%list = false.
Proof.
  induction l as [|a l IH]; intros Hl Hl'; [destruct Hl|].
  simpl. destruct Hl as [->|Hl].
  - replace (existsb (String.eqb k) (l ++ l')%list) with true; [reflexivity|].
    symmetry. apply existsb_exists. exists k. split.
    + apply in_or_app. now right.
    + apply String.eqb_refl.
  - rewrite (IH Hl Hl'). apply andb_false_r.
Qed.

Lemma constraints_fail_on_shared (k : string) (table rows : list row) :
  In k (map department_number table) -> In k (map department_number rows) ->
  constraints_hold (table ++ rows)%list = false.
Proof.
  intros Ht Hr. unfold constraints_hold. rewrite (map_app department_number).
  rewrite (distinct_app_shared k _ _ Ht Hr). apply andb_false_r.
Qed.

Lemma inserted_departments (rows : list (string -> Sql.timestamptz -> row))
    (generated generated' : nat -> string) (now now' : Sql.timestamptz) :
  (forall r g g' t t', In r rows -> department_number (r g t) = department_number (r g' t')) ->
  map department_number (inserted rows generated now)
  = map department_number (inserted rows generated' now').
Proof.
  revert generated generated'.
  induction rows as [|r rows IH]; intros generated generated' H; [reflexivity|].
  simpl. f_equal.
  - apply H. now left.
  - apply IH. intros r' g g' t t' Hr'. apply H. now right.
Qed.

Lemma initial_departments (generated generated' : nat -> string)
    (now now' : Sql.timestamptz) :
  map department_number (inserted initial_data generated now)
  = map department_number (inserted initial_data generated' now').
Proof.
  apply inserted_departments. intros r g g' t t' Hr.
  unfold initial_data in Hr. simpl in Hr.
  repeat (destruct Hr as [<-|Hr]; [reflexivity|]). destruct Hr.
Qed.

Lemma initial_data_has_tri_county (generated : nat -> string) (now : Sql.timestamptz) :
  In "9011" (map department_number (inserted initial_data generated now)).
Proof.
  rewrite (initial_departments generated (fun _ => "") now 0%Z). simpl. auto.
Qed.

(** X21. The INSERT of the initial data works once.  Whenever it has
    succeeded, running the two statements again, at any time and with any
    generated ids, fails on the UNIQUE department numbers: [CREATE TABLE IF
    NOT EXISTS] keeps the filled table and the twenty rows collide with
    those already there. *)
Theorem initial_data_inserts_once (generated generated' : nat -> string)
    (now now' : Sql.timestamptz) (stores : option (list row)) (table : list row) :
  create_and_fill generated now stores = Some table ->
  create_and_fill generated' now' (Some table) = None.
Proof.
  unfold create_and_fill, INSERT. intro H.
  destruct (constraints_hold _) eqn:E in H; [|discriminate].
  injection H as <-. cbn [CREATE_TABLE_IF_NOT_EXISTS].
  rewrite (constraints_fail_on_shared "9011"); [reflexivity| |].
  - rewrite map_app. apply in_or_app. right. apply initial_data_has_tri_county.
  - apply initial_data_has_tri_county.
Qed.

(** On a database without [stores] the two statements give the twenty rows
    of the scenario; the next run fails. *)
Lemma initial_data_inserts_once_witness :
  create_and_fill Scenario.store_id (20000 * Sql.seconds_per_day) None
  = Some Scenario.stores_table
  /\ create_and_fill Scenario.store_id (20001 * Sql.seconds_per_day)
       (Some Scenario.stores_table)
     = None.
Proof.
  assert (H : create_and_fill Scenario.store_id (20000 * Sql.seconds_per_day) None
              = Some Scenario.stores_table) by reflexivity.
  split; [exact H|].
  exact (initial_data_inserts_once Scenario.store_id Scenario.store_id
           (20000 * Sql.seconds_per_day) (20001 * Sql.seconds_per_day)
           None Scenario.stores_table H).
Defined.

End StoresLaws.
